(** * The unique random IP sampler [generate_ips] (test.IpGen/ipgen.py)

    A shallow embedding of [generate_ips] together with the parts of the
    Python standard library it calls: [ipaddress.ip_network] and
    [network.hosts()] for IPv4, [random.choice], the built-in [set] and
    [str.join].  Addresses are Python integers, modelled as [Z]; strings
    are [string]; the two effects of the function (printing warnings and
    advancing the random generator) are threaded through an explicit
    [world]. *)

From Stdlib Require Import ZArith List String Ascii Bool Lia Arith PeanoNat.
From Stdlib Require Import Permutation DecimalString Decimal.
Import ListNotations.

Local Open Scope string_scope.
Local Open Scope Z_scope.

Set Implicit Arguments.

(** ** Python string primitives *)

Module PyStr.

(** [sep.join(l)] *)
Fixpoint join (sep : string) (l : list string) : string :=
  match l with
  | [] => ""
  | [x] => x
  | x :: rest => x ++ sep ++ join sep rest
  end.

(** [s.split(sep)] for a one-character separator: never the empty list. *)
Fixpoint split (sep : ascii) (s : string) : list string :=
  match s with
  | EmptyString => [""]
  | String c s' =>
      if Ascii.eqb c sep then "" :: split sep s'
      else match split sep s' with
           | [] => [String c ""]
           | h :: t => String c h :: t
           end
  end.

(** [sep in s] for a one-character [sep] *)
Fixpoint contains (sep : ascii) (s : string) : bool :=
  match s with
  | EmptyString => false
  | String c s' => Ascii.eqb c sep || contains sep s'
  end.

Definition is_ascii_digit (c : ascii) : bool :=
  let n := nat_of_ascii c in (48 <=? n)%nat && (n <=? 57)%nat.

Fixpoint all_chars (p : ascii -> bool) (s : string) : bool :=
  match s with
  | EmptyString => true
  | String c s' => p c && all_chars p s'
  end.

(** [s.isascii() and s.isdigit()]: non-empty, only the characters 0-9. *)
Definition isdigit (s : string) : bool :=
  match s with
  | EmptyString => false
  | _ => all_chars is_ascii_digit s
  end.

Fixpoint int_acc (acc : Z) (s : string) : Z :=
  match s with
  | EmptyString => acc
  | String c s' => int_acc (10 * acc + (Z.of_nat (nat_of_ascii c) - 48)) s'
  end.

(** [int(s, 10)] on a string of decimal digits *)
Definition int (s : string) : Z := int_acc 0 s.

(** [sys.int_info.default_max_str_digits]: longer digit strings make
    [int] raise [ValueError]. *)
Definition default_max_str_digits : nat := 4300.

(** [str(n)] for a non-negative integer *)
Definition str (n : Z) : string := NilZero.string_of_uint (N.to_uint (Z.to_N n)).

End PyStr.

(** ** The [ipaddress] module, IPv4 part *)

Module ipaddress.

Definition IPV4LENGTH : Z := 32.
Definition _ALL_ONES : Z := 2 ^ IPV4LENGTH - 1.
Definition _max_prefixlen : Z := IPV4LENGTH.

(** The exceptions of the module, all of them [ValueError]s: the two
    subclasses that make [ip_network] fall through to the next
    constructor, the plain [ValueError] of a strict network whose host
    bits are set, and the final [ValueError] of [ip_network]. *)
Inductive error :=
| AddressValueError
| NetmaskValueError
| HostBitsSet
| NotIPv4OrIPv6.

Inductive result (A : Type) :=
| Ok (a : A)
| Raise (e : error).
Arguments Ok {A} a.
Arguments Raise {A} e.

Definition bind {A B} (r : result A) (k : A -> result B) : result B :=
  match r with
  | Ok a => k a
  | Raise e => Raise e
  end.

(** [_parse_octet]: [None] stands for its [ValueError]. *)
Definition _parse_octet (octet_str : string) : option Z :=
  if String.eqb octet_str "" then None
  else if negb (PyStr.isdigit octet_str) then None
  else if (3 <? String.length octet_str)%nat then None
  else if negb (String.eqb octet_str "0")
          && match octet_str with
             | String c _ => Ascii.eqb c "0"
             | EmptyString => false
             end then None
  else
    let octet_int := PyStr.int octet_str in
    if 255 <? octet_int then None else Some octet_int.

Fixpoint parse_octets (octets : list string) : option (list Z) :=
  match octets with
  | [] => Some []
  | o :: rest =>
      match _parse_octet o, parse_octets rest with
      | Some b, Some bs => Some (b :: bs)
      | _, _ => None
      end
  end.

(** [int.from_bytes(bs, 'big')] *)
Definition from_bytes (bs : list Z) : Z :=
  fold_left (fun acc b => acc * 256 + b) bs 0.

(** [_ip_int_from_string] *)
Definition _ip_int_from_string (ip_str : string) : result Z :=
  if String.eqb ip_str "" then Raise AddressValueError
  else
    let octets := PyStr.split "." ip_str in
    if negb (List.length octets =? 4)%nat then Raise AddressValueError
    else match parse_octets octets with
         | Some bs => Ok (from_bytes bs)
         | None => Raise AddressValueError
         end.

(** [IPv4Address(addr)._ip] for a string argument *)
Definition IPv4Address (addr_str : string) : result Z :=
  if PyStr.contains "/" addr_str then Raise AddressValueError
  else _ip_int_from_string addr_str.

(** [ip_int.to_bytes(4, 'big')] *)
Definition to_bytes (ip_int : Z) : list Z :=
  [Z.land (Z.shiftr ip_int 24) 255; Z.land (Z.shiftr ip_int 16) 255;
   Z.land (Z.shiftr ip_int 8) 255; Z.land ip_int 255].

(** [_string_from_ip_int], which is [str(IPv4Address(ip_int))] *)
Definition _string_from_ip_int (ip_int : Z) : string :=
  PyStr.join "." (map PyStr.str (to_bytes ip_int)).

(** [_ip_int_from_prefix] *)
Definition _ip_int_from_prefix (prefixlen : Z) : Z :=
  Z.lxor _ALL_ONES (Z.shiftr _ALL_ONES prefixlen).

Definition bit_length (x : Z) : Z :=
  if x =? 0 then 0 else Z.log2 (Z.abs x) + 1.

(** [_count_righthand_zero_bits] *)
Definition _count_righthand_zero_bits (number bits : Z) : Z :=
  if number =? 0 then bits
  else Z.min bits (bit_length (Z.land (Z.lnot number) (number - 1))).

(** [_prefix_from_ip_int]: [None] stands for its [ValueError]. *)
Definition _prefix_from_ip_int (ip_int : Z) : option Z :=
  let trailing_zeroes := _count_righthand_zero_bits ip_int _max_prefixlen in
  let prefixlen := _max_prefixlen - trailing_zeroes in
  let leading_ones := Z.shiftr ip_int trailing_zeroes in
  let all_ones := Z.shiftl 1 prefixlen - 1 in
  if negb (leading_ones =? all_ones) then None else Some prefixlen.

(** [_prefix_from_prefix_string]; [int] itself raises [ValueError] on
    more than [default_max_str_digits] digits, reported the same way. *)
Definition _prefix_from_prefix_string (prefixlen_str : string) : result Z :=
  if negb (PyStr.isdigit prefixlen_str) then Raise NetmaskValueError
  else if (PyStr.default_max_str_digits <? String.length prefixlen_str)%nat
  then Raise NetmaskValueError
  else
    let prefixlen := PyStr.int prefixlen_str in
    if negb ((0 <=? prefixlen) && (prefixlen <=? _max_prefixlen))
    then Raise NetmaskValueError
    else Ok prefixlen.

(** [_prefix_from_ip_string] *)
Definition _prefix_from_ip_string (ip_str : string) : result Z :=
  match _ip_int_from_string ip_str with
  | Raise _ => Raise NetmaskValueError
  | Ok ip_int =>
      match _prefix_from_ip_int ip_int with
      | Some p => Ok p
      | None =>
          match _prefix_from_ip_int (Z.lxor ip_int _ALL_ONES) with
          | Some p => Ok p
          | None => Raise NetmaskValueError
          end
      end
  end.

(** [_make_netmask] for a string argument: (netmask, prefixlen).  The
    class-level cache only memoises this pure computation. *)
Definition _make_netmask (arg : string) : result (Z * Z) :=
  let prefixlen :=
    match _prefix_from_prefix_string arg with
    | Ok p => Ok p
    | Raise _ => _prefix_from_ip_string arg
    end in
  bind prefixlen (fun p => Ok (_ip_int_from_prefix p, p)).

(** An [IPv4Network] object: its [network_address] and [prefixlen]. *)
Record IPv4Network := mkIPv4Network {
  network_address : Z;
  prefixlen : Z
}.

Definition netmask (n : IPv4Network) : Z := _ip_int_from_prefix (prefixlen n).
Definition hostmask (n : IPv4Network) : Z := Z.lxor (netmask n) _ALL_ONES.
Definition broadcast_address (n : IPv4Network) : Z :=
  Z.lor (network_address n) (hostmask n).

(** [range(a, b)] *)
Definition py_range (a b : Z) : list Z :=
  map (fun k => a + Z.of_nat k) (seq 0 (Z.to_nat (b - a))).

(** [_BaseNetwork.hosts], with the two overrides that
    [IPv4Network.__init__] installs: [__iter__] for a /31 and the single
    address for a /32. *)
Definition hosts (n : IPv4Network) : list Z :=
  if prefixlen n =? _max_prefixlen - 1 then
    py_range (network_address n) (broadcast_address n + 1)
  else if prefixlen n =? _max_prefixlen then
    [network_address n]
  else
    py_range (network_address n + 1) (broadcast_address n).

(** [str(network)], that is ['%s/%d' % (network_address, prefixlen)]:
    the CIDR notation of an address and a prefix length. *)
Definition cidr (address prefixlen : Z) : string :=
  _string_from_ip_int address ++ "/" ++ PyStr.str prefixlen.

(** [_split_optional_netmask] followed by [_split_addr_prefix]:
    the address part and the optional mask part. *)
Definition _split_addr_prefix (address : string)
  : result (string * option string) :=
  match PyStr.split "/" address with
  | [addr] => Ok (addr, None)
  | [addr; mask] => Ok (addr, Some mask)
  | _ => Raise AddressValueError
  end.

(** [IPv4Network(address, strict=True)] *)
Definition IPv4Network_init (address : string) : result IPv4Network :=
  bind (_split_addr_prefix address) (fun '(addr, mask) =>
  bind (IPv4Address addr) (fun packed =>
  bind (match mask with
        | Some m => _make_netmask m
        | None => Ok (_ip_int_from_prefix _max_prefixlen, _max_prefixlen)
        end) (fun '(nm, plen) =>
  if negb (Z.land packed nm =? packed) then Raise HostBitsSet
  else Ok (mkIPv4Network packed plen)))).

End ipaddress.

Import ipaddress.

(** ** What the interpreter supplies

    Three things the sampler relies on are left to the interpreter: the
    IPv6 constructor behind [ip_network] and the generator behind
    [random.choice], which make up the [Runtime], and the order in which
    a [set] of strings is iterated, the [SetOrder], which follows from
    the string hashes of the running process. *)

Class Runtime := {
  (** [[str(ip) for ip in IPv6Network(address).hosts()]], or the
      exception that [IPv6Network(address)] raises *)
  IPv6Network_hosts : string -> result (list string);
  (** an address without a colon has fewer than the three parts that
      the IPv6 parser asks for *)
  IPv6Network_colon : forall address,
    PyStr.contains ":" address = false ->
    IPv6Network_hosts address = Raise AddressValueError;
  (** the state of the generator and [Random._randbelow] *)
  rng_state : Type;
  _randbelow : nat -> rng_state -> nat * rng_state;
  _randbelow_lt : forall n g, (0 < n)%nat -> (fst (_randbelow n g) < n)%nat
}.

Class SetOrder := {
  (** iteration order of the set built by adding these distinct
      strings in this order *)
  set_iter : list string -> list string;
  set_iter_perm : forall l, NoDup l -> Permutation (set_iter l) l
}.

(** ** The sampler *)

Inductive network :=
| V4 (n : IPv4Network)
| V6 (host_strs : list string).

(** [[str(ip) for ip in network.hosts()]] *)
Definition host_strings (n : network) : list string :=
  match n with
  | V4 n4 => map _string_from_ip_int (hosts n4)
  | V6 l => l
  end.

(** The two warnings that [generate_ips] prints. *)
Inductive event :=
| InvalidRange (ip_range : string) (e : error)
| CountExceedsPool (num_ips : Z) (available : nat).

(** How a call ends: with a string, with the [ValueError] of the count
    check, or still inside the [while] loop when the fuel is spent. *)
Inductive outcome :=
| Returned (s : string)
| RaisedValueError
| OutOfFuel.

(** [unique_ips.add(x)] on a set kept as the list of its elements in
    the order of first insertion *)
Definition set_add (x : string) (s : list string) : list string :=
  if in_dec string_dec x s then s else s ++ [x].

Section Sampler.

Context {RT : Runtime} {SO : SetOrder}.

Record world := mkWorld {
  rng : rng_state;
  stdout : list event
}.

Definition print (e : event) (w : world) : world :=
  mkWorld (rng w) (stdout w ++ [e]).

(** [ipaddress.ip_network(address)] *)
Definition ip_network (address : string) : result network :=
  match IPv4Network_init address with
  | Ok n => Ok (V4 n)
  | Raise AddressValueError | Raise NetmaskValueError =>
      match IPv6Network_hosts address with
      | Ok l => Ok (V6 l)
      | Raise AddressValueError | Raise NetmaskValueError =>
          Raise NotIPv4OrIPv6
      | Raise e => Raise e
      end
  | Raise e => Raise e
  end.

(** The [for] loop over [ip_ranges] (lines 20-28). *)
Fixpoint collect (ip_ranges : list string) (all_ips : list string)
    (w : world) : list string * world :=
  match ip_ranges with
  | [] => (all_ips, w)
  | ip_range :: rest =>
      match ip_network ip_range with
      | Ok network => collect rest (all_ips ++ host_strings network) w
      | Raise e => collect rest all_ips (print (InvalidRange ip_range e) w)
      end
  end.

(** [random.choice(seq)] for a non-empty [seq] *)
Definition choice (seq : list string) (g : rng_state) : string * rng_state :=
  let (i, g') := _randbelow (List.length seq) g in (nth i seq "", g').

(** The [while] loop (lines 38-39); [None] when the fuel runs out. *)
Fixpoint draw_loop (fuel : nat) (all_ips : list string) (num_ips : Z)
    (unique_ips : list string) (g : rng_state)
  : option (list string * rng_state) :=
  if Z.of_nat (List.length unique_ips) <? num_ips then
    match fuel with
    | O => None
    | S fuel' =>
        let (x, g') := choice all_ips g in
        draw_loop fuel' all_ips num_ips (set_add x unique_ips) g'
    end
  else Some (unique_ips, g).

Definition generate_ips (ip_ranges : list string) (num_ips : Z)
    (fuel : nat) (w : world) : outcome * world :=
  if negb ((10 <=? num_ips) && (num_ips <=? 5000)) then
    (RaisedValueError, w)
  else
    let (all_ips, w) := collect ip_ranges [] w in
    match all_ips with
    | [] => (Returned "", w)
    | _ :: _ =>
        let (num_ips, w) :=
          if Z.of_nat (List.length all_ips) <? num_ips then
            (Z.of_nat (List.length all_ips),
             print (CountExceedsPool num_ips (List.length all_ips)) w)
          else (num_ips, w) in
        match draw_loop fuel all_ips num_ips [] (rng w) with
        | None => (OutOfFuel, w)
        | Some (unique_ips, g) =>
            (Returned (PyStr.join "," (set_iter unique_ips)),
             mkWorld g (stdout w))
        end
    end.

(** *** Vocabulary of the statements *)

(** The host address pool: what [all_ips] holds after the [for] loop. *)
Definition host_pool (ip_ranges : list string) : list string :=
  flat_map (fun ip_range =>
              match ip_network ip_range with
              | Ok network => host_strings network
              | Raise _ => []
              end) ip_ranges.

(** The warnings of the [for] loop, one per range that does not parse. *)
Definition range_warnings (ip_ranges : list string) : list event :=
  flat_map (fun ip_range =>
              match ip_network ip_range with
              | Ok _ => []
              | Raise e => [InvalidRange ip_range e]
              end) ip_ranges.

(** The count after the clamp of lines 33-35, and its warning. *)
Definition effective_count (all_ips : list string) (num_ips : Z) : Z :=
  if Z.of_nat (List.length all_ips) <? num_ips
  then Z.of_nat (List.length all_ips) else num_ips.

Definition clamp_warning (all_ips : list string) (num_ips : Z) : list event :=
  if Z.of_nat (List.length all_ips) <? num_ips
  then [CountExceedsPool num_ips (List.length all_ips)] else [].

Definition parses (ip_range : string) : bool :=
  match ip_network ip_range with
  | Ok _ => true
  | Raise _ => false
  end.

(** The generator after [k] draws below [n], and the [k]-th draw. *)
Fixpoint rng_after (n k : nat) (g : rng_state) : rng_state :=
  match k with
  | O => g
  | S k' => rng_after n k' (snd (_randbelow n g))
  end.

Definition nth_draw (n k : nat) (g : rng_state) : nat :=
  fst (_randbelow n (rng_after n k g)).

(** A generator is fair below [n] when every index below [n] keeps
    being drawn: the deterministic counterpart of what a uniform
    source does with probability one. *)
Definition fair (n : nat) (g : rng_state) : Prop :=
  forall k i, (i < n)%nat -> exists j, (k <= j)%nat /\ nth_draw n j g = i.

End Sampler.

(** ** A concrete runtime for the worked examples

    The generator hands out the indices in turn (0, 1, 2, ... modulo
    the bound) and the IPv6 constructor rejects every string (none of
    the examples below passes a string with a colon); a set is iterated
    in insertion order. *)

Definition round_robin : Runtime := {|
  IPv6Network_hosts := fun _ => Raise AddressValueError;
  IPv6Network_colon := fun _ _ => eq_refl;
  rng_state := nat;
  _randbelow := fun n g => (g mod n, S g)%nat;
  _randbelow_lt := fun n g H =>
    Nat.mod_upper_bound g n (proj2 (Nat.neq_0_lt_0 n) H)
|}.

Definition insertion_order : SetOrder := {|
  set_iter := fun l => l;
  set_iter_perm := fun l _ => Permutation_refl l
|}.

(** Another process, whose string hashes make a set come out in the
    opposite order. *)
Definition reverse_order : SetOrder := {|
  set_iter := fun l => List.rev l;
  set_iter_perm := fun l _ => Permutation_sym (Permutation_rev l)
|}.

(** The world in which the examples start: generator at 0, nothing
    printed yet. *)
Definition w0 : @world round_robin := @mkWorld round_robin O [].

(** ** The script part of ipgen.py (lines 44-61) *)

(** A line that the script writes: a warning printed inside
    [generate_ips], the result printed by the script, or the error line
    of its [except] clause. *)
Inductive script_line :=
| Warning (e : event)
| Generated (s : string)
| ErrorLine.

Section Script.

Context {RT : Runtime} {SO : SetOrder}.

(** One [try] block of the script: call, then print the result, or
    print the error of a [ValueError]; [None] while the call is still
    running. *)
Definition run_example (ip_ranges : list string) (num_ips : Z)
    (fuel : nat) (g : rng_state) : option (list script_line * rng_state) :=
  match generate_ips ip_ranges num_ips fuel (mkWorld g []) with
  | (Returned generated_ips, w) =>
      Some ((map Warning (stdout w) ++ [Generated generated_ips])%list, rng w)
  | (RaisedValueError, w) =>
      Some ((map Warning (stdout w) ++ [ErrorLine])%list, rng w)
  | (OutOfFuel, _) => None
  end.

Definition ip_ranges_main : list string :=
  ["192.168.1.0/24"; "10.0.0.0/24"; "172.16.0.0/28"].

Definition ip_ranges_small : list string := ["192.168.1.0/30"].

(** The two examples, one after the other on the same generator. *)
Definition script (fuel : nat) (g : rng_state)
  : option (list script_line * rng_state) :=
  match run_example ip_ranges_main 300 fuel g with
  | None => None
  | Some (out1, g1) =>
      match run_example ip_ranges_small 10 fuel g1 with
      | None => None
      | Some (out2, g2) => Some ((out1 ++ out2)%list, g2)
      end
  end.

End Script.

(** ** Python strings as sequences of code points

    The other two scripts strip, pad and measure text that may hold any
    character, so there a [str] is the list of its code points and
    [len] is the length of that list. *)

Module PyUni.

Definition ustr := list Z.

(** An ASCII literal. *)
Definition lit (s : string) : ustr :=
  map (fun c => Z.of_nat (nat_of_ascii c)) (list_ascii_of_string s).

Definition eqb (s t : ustr) : bool :=
  if list_eq_dec Z.eq_dec s t then true else false.

(** [c.isspace()], the characters that [str.strip()] removes
    (Unicode 14, the table of CPython 3.11). *)
Definition isspace (c : Z) : bool :=
  ((9 <=? c) && (c <=? 13)) || ((28 <=? c) && (c <=? 32))
  || (c =? 133) || (c =? 160) || (c =? 5760)
  || ((8192 <=? c) && (c <=? 8202))
  || (c =? 8232) || (c =? 8233) || (c =? 8239) || (c =? 8287)
  || (c =? 12288).

Fixpoint lstrip (s : ustr) : ustr :=
  match s with
  | [] => []
  | c :: s' => if isspace c then lstrip s' else s
  end.

Definition rstrip (s : ustr) : ustr := List.rev (lstrip (List.rev s)).

(** [s.strip()] *)
Definition strip (s : ustr) : ustr := rstrip (lstrip s).

(** [s.replace(old, new)] for one-character [old] and [new] *)
Definition replace (old new : Z) (s : ustr) : ustr :=
  map (fun c => if c =? old then new else c) s.

(** [s.ljust(width)] *)
Definition ljust (width : Z) (s : ustr) : ustr :=
  (s ++ repeat 32 (Z.to_nat (width - Z.of_nat (List.length s))))%list.

(** [sep.join(l)] *)
Fixpoint join (sep : ustr) (l : list ustr) : ustr :=
  match l with
  | [] => []
  | [x] => x
  | x :: rest => (x ++ sep ++ join sep rest)%list
  end.

(** The truth value of a string: it is not empty. *)
Definition truthy (s : ustr) : bool :=
  match s with
  | [] => false
  | _ :: _ => true
  end.

(** [s.split(sep)[0]] for a one-character [sep]: up to its first
    occurrence. *)
Fixpoint before (sep : Z) (s : ustr) : ustr :=
  match s with
  | [] => []
  | c :: s' => if c =? sep then [] else c :: before sep s'
  end.

(** [s.split('//')[-1]]: [split] looks for double slashes from the
    left without overlap, and the last piece is what follows the last
    one it finds, or all of [s].  [cur] is the piece that has started. *)
Fixpoint last_piece (cur s : ustr) : ustr :=
  match s with
  | [] => cur
  | c :: s' =>
      match s' with
      | [] => cur
      | d :: s'' =>
          if (c =? 47) && (d =? 47) then last_piece s'' s''
          else last_piece cur s'
      end
  end.

Definition after_double_slash (s : ustr) : ustr := last_piece s s.

End PyUni.

(** ** State and trace of the outside world

    The two scripts below talk to processes, files and servers.  What
    those answer is left to an environment with a state of type [E];
    what the script asks and prints is recorded, in order, in a trace of
    events of type [Ev]. *)

Definition IO (E Ev A : Type) : Type := E * list Ev -> A * (E * list Ev).

Definition io_ret {E Ev A} (a : A) : IO E Ev A := fun s => (a, s).

Definition io_bind {E Ev A B} (c : IO E Ev A) (k : A -> IO E Ev B)
  : IO E Ev B :=
  fun s => let (a, s') := c s in k a s'.

(** Record an event. *)
Definition emit {E Ev} (e : Ev) : IO E Ev unit :=
  fun s => (tt, (fst s, (snd s ++ [e])%list)).

(** Ask the environment. *)
Definition ask {E Ev A} (f : E -> A * E) : IO E Ev A :=
  fun s => let (a, e') := f (fst s) in (a, (e', snd s)).

Declare Scope io_scope.
Delimit Scope io_scope with io.
Notation "x <- c ;; k" := (io_bind c (fun x => k))
  (at level 61, c at next level, right associativity) : io_scope.
Notation "c ;;; k" := (io_bind c (fun _ => k))
  (at level 61, right associativity) : io_scope.

(** ** scan_analyzer.py *)

Module ScanAnalyzer.

Import PyUni.

(** Line 90: the name of the report file of a target. *)
Definition report_filename (target : ustr) : ustr :=
  (lit "report_" ++ replace 92 95 (replace 47 95 target) ++ lit ".md")%list.

(** Lines 117-118: the targets are the stripped lines that are not
    blank. *)
Definition read_targets (lines : list ustr) : list ustr :=
  map strip (filter (fun line => truthy (strip line)) lines).

(** How [subprocess.run(['nmap', '--version'], check=True)] ends. *)
Inductive version_result :=
| VersionOk
| VersionCalledProcessError
| VersionFileNotFoundError
| VersionOtherException.

(** How [subprocess.run(['nmap', '-A', '-oX', '-', target], check=True,
    timeout=300)] ends. *)
Inductive scan_result :=
| ScanStdout (xml : ustr)
| ScanCalledProcessError
| ScanTimeoutExpired
| ScanOtherException.

(** How [ollama.generate(...)] ends: with an exception, or with a
    response whose ['response'] entry may be missing. *)
Inductive generate_result :=
| GenerateException
| GenerateResponse (report : option ustr).

Record Env (E : Type) := {
  nmap_version : E -> version_result * E;
  (** [os.path.exists('targets.txt')] *)
  targets_exists : E -> bool * E;
  (** the lines of targets.txt, or [None] when opening or reading
      raises *)
  targets_lines : E -> option (list ustr) * E;
  nmap_scan : ustr -> E -> scan_result * E;
  (** whether [ET.fromstring] accepts the text (it raises [ParseError]
      otherwise) *)
  xml_well_formed : ustr -> bool;
  ollama_generate : ustr -> E -> generate_result * E;
  (** opening the file and writing the report; [false] when that
      raises *)
  write_file : ustr -> ustr -> E -> bool * E
}.

(** What the script prints, and what it asks of the outside. *)
Inductive event :=
| PrintNmapMissing
| PrintTargetsMissing
| PrintReadError
| PrintNoTargets
| PrintScanning (target : ustr)
| PrintScanFailed (target : ustr)
| PrintScanTimeout (target : ustr)
| PrintScanError (target : ustr)
| PrintXml (xml_output : option ustr)
| PrintSkipped (target : ustr)
| PrintInvalidXml (target : ustr)
| PrintAnalyzing (target : ustr)
| PrintPrompt (prompt : ustr)
| PrintResponse
| PrintReportWritten (filename : ustr)
| PrintOllamaFailed
| PrintAnalysisFailed (target : ustr)
| PrintAllDone
| RunNmap (target : ustr)
| CallOllama (prompt : ustr)
| WriteReport (filename report : ustr).

(** How [main] ends: by falling off its end, by [sys.exit(code)], or
    with an exception that nothing catches. *)
Inductive outcome :=
| Completed
| SysExit (code : Z)
| Uncaught.

Section Model.

Context {E : Type} (env : Env E).

(** The text of [ANALYSIS_PROMPT] before and after its one field,
    [{nmap_xml_output}]. *)
Variables prompt_before prompt_after : ustr.

Local Open Scope io_scope.

Definition check_nmap_installed : IO E event (option bool) :=
  r <- ask (nmap_version env) ;;
  match r with
  | VersionOk => io_ret (Some true)
  | VersionCalledProcessError | VersionFileNotFoundError => io_ret (Some false)
  | VersionOtherException => io_ret None
  end.

Definition run_nmap_scan (target : ustr) : IO E event (option ustr) :=
  emit (RunNmap target) ;;;
  r <- ask (nmap_scan env target) ;;
  match r with
  | ScanStdout xml => io_ret (Some xml)
  | ScanCalledProcessError => emit (PrintScanFailed target) ;;; io_ret None
  | ScanTimeoutExpired => emit (PrintScanTimeout target) ;;; io_ret None
  | ScanOtherException => emit (PrintScanError target) ;;; io_ret None
  end.

(** [ANALYSIS_PROMPT.format(nmap_xml_output=xml_output)] *)
Definition format_prompt (xml_output : ustr) : ustr :=
  (prompt_before ++ xml_output ++ prompt_after)%list.

Definition analyze_with_ollama (xml_output target : ustr) : IO E event bool :=
  let prompt := format_prompt xml_output in
  emit (PrintPrompt prompt) ;;;
  emit (CallOllama prompt) ;;;
  response <- ask (ollama_generate env prompt) ;;
  match response with
  | GenerateException => emit PrintOllamaFailed ;;; io_ret false
  | GenerateResponse r =>
      emit PrintResponse ;;;
      match r with
      | None => emit PrintOllamaFailed ;;; io_ret false
      | Some report =>
          let filename := report_filename target in
          emit (WriteReport filename report) ;;;
          written <- ask (write_file env filename report) ;;
          if written then emit (PrintReportWritten filename) ;;; io_ret true
          else emit PrintOllamaFailed ;;; io_ret false
      end
  end.

(** The body of the [for] loop of [main] (lines 129-151). *)
Definition process_target (target : ustr) : IO E event unit :=
  emit (PrintScanning target) ;;;
  xml_output <- run_nmap_scan target ;;
  emit (PrintXml xml_output) ;;;
  match xml_output with
  | None => emit (PrintSkipped target)
  | Some xml =>
      if negb (xml_well_formed env xml) then emit (PrintInvalidXml target)
      else
        emit (PrintAnalyzing target) ;;;
        ok <- analyze_with_ollama xml target ;;
        if negb ok then emit (PrintAnalysisFailed target) else io_ret tt
  end.

Fixpoint process_targets (targets : list ustr) : IO E event unit :=
  match targets with
  | [] => io_ret tt
  | target :: rest => process_target target ;;; process_targets rest
  end.

Definition main : IO E event outcome :=
  installed <- check_nmap_installed ;;
  match installed with
  | None => io_ret Uncaught
  | Some false => emit PrintNmapMissing ;;; io_ret (SysExit 1)
  | Some true =>
      there <- ask (targets_exists env) ;;
      if negb there then emit PrintTargetsMissing ;;; io_ret (SysExit 1)
      else
        lines <- ask (targets_lines env) ;;
        match lines with
        | None => emit PrintReadError ;;; io_ret (SysExit 1)
        | Some lines =>
            let targets := read_targets lines in
            if negb (match targets with [] => false | _ => true end)
            then emit PrintNoTargets ;;; io_ret (SysExit 1)
            else
              process_targets targets ;;;
              emit PrintAllDone ;;;
              io_ret Completed
        end
  end.

End Model.

(** *** Reading a trace *)

Definition nmap_runs (tr : list event) : list ustr :=
  flat_map (fun e => match e with RunNmap t => [t] | _ => [] end) tr.

Definition ollama_calls (tr : list event) : list ustr :=
  flat_map (fun e => match e with CallOllama p => [p] | _ => [] end) tr.

Definition report_writes (tr : list event) : list (ustr * ustr) :=
  flat_map (fun e => match e with WriteReport f r => [(f, r)] | _ => [] end) tr.

(** *** Vocabulary of the statements about the loop *)

Section LoopVocabulary.

Context {E : Type} (env : Env E) (prompt_before prompt_after : ustr).

(** What one round of the loop adds to the trace. *)
Definition round_ok (target : ustr) (tr : list event) : Prop :=
  nmap_runs tr = [target] /\
  hd_error tr = Some (PrintScanning target) /\
  (forall p, In p (ollama_calls tr) ->
     exists xml, p = format_prompt prompt_before prompt_after xml /\ xml_well_formed env xml = true) /\
  (forall f r, In (f, r) (report_writes tr) -> f = report_filename target) /\
  (List.length (report_writes tr) <= List.length (ollama_calls tr) <= 1)%nat.

(** What the whole loop adds to the trace. *)
Definition loop_ok (targets : list ustr) (tr : list event) : Prop :=
  nmap_runs tr = targets /\
  (forall p, In p (ollama_calls tr) ->
     exists xml, p = format_prompt prompt_before prompt_after xml /\ xml_well_formed env xml = true) /\
  (forall f r, In (f, r) (report_writes tr) ->
     exists target, In target targets /\ f = report_filename target) /\
  (List.length (report_writes tr) <= List.length (ollama_calls tr)
   <= List.length targets)%nat.

End LoopVocabulary.

(** *** An outside world for examples

    Its targets.txt holds "10.0.0.1", a blank line and " a/b " (each
    with its line break); nmap answers for the first target and times
    out for the other; everything else works. *)
Definition example_env : Env unit := {|
  nmap_version := fun e => (VersionOk, e);
  targets_exists := fun e => (true, e);
  targets_lines := fun e =>
    (Some [lit "10.0.0.1" ++ [10]; [10]; lit " a/b " ++ [10]]%list, e);
  nmap_scan := fun target e =>
    (if eqb target (lit "10.0.0.1") then ScanStdout (lit "<nmaprun/>")
     else ScanTimeoutExpired, e);
  xml_well_formed := fun _ => true;
  ollama_generate := fun _ e => (GenerateResponse (Some (lit "report")), e);
  write_file := fun _ _ e => (true, e)
|}.

End ScanAnalyzer.

(** ** check_urls.py *)

Module CheckUrls.

Import PyUni.

(** The texts 是, 否, 访问失败 and 解析失败: (with its colon and space). *)
Definition shi : ustr := [26159].
Definition fou : ustr := [21542].
Definition fangwen_shibai : ustr := [35775; 38382; 22833; 36133].
Definition jiexi_shibai : ustr := [35299; 26512; 22833; 36133; 58; 32].

(** What [requests.utils.urlparse(url)] and its [hostname] give: an
    exception with its text, or the host name, if any. *)
Inductive parse_result :=
| ParseException (text : ustr)
| Hostname (hostname : option ustr).

(** What the script reads of a response. *)
Record response := mkResponse {
  status_code : Z;
  (** [headers.get('Location')] *)
  location : option ustr
}.

(** What the script asks and does outside. *)
Inductive event :=
| Ping (host : ustr)
| HttpGet (url : ustr).

Section Model.

(** [E] is the state of the outside world, [T] a reading of the clock
    and [F] a floating-point number of milliseconds. *)
Context {E T F : Type}.

Record Env := {
  urlparse_hostname : ustr -> parse_result;
  (** [subprocess.run(['ping', ...]).returncode == 0], or [false] when
      running it raises *)
  ping : ustr -> E -> bool * E;
  (** [requests.get(url, timeout=10, verify=False,
      allow_redirects=False)], or [None] when it raises *)
  get : ustr -> E -> option response * E;
  (** [time.time()] *)
  time : E -> T * E;
  (** [round((t1 - t0) * 1000, 2)] *)
  elapsed_ms : T -> T -> F
}.

(** A value in a result row. *)
Inductive cell :=
| Str (s : ustr)
| Int (n : Z)
| Float (x : F).

Context (env : Env).

Local Open Scope io_scope.

Definition check_ping (host : ustr) : IO E event bool :=
  emit (Ping host) ;;; ask (ping env host).

Definition http_get (url : ustr) : IO E event (option response) :=
  emit (HttpGet url) ;;; ask (get env url).

(** [parsed.hostname or url.split('//')[-1].split(':')[0]] *)
Definition host_of (hostname : option ustr) (url : ustr) : ustr :=
  match hostname with
  | Some h => if truthy h then h else before 58 (after_double_slash url)
  | None => before 58 (after_double_slash url)
  end.

Definition check_url (url : ustr) : IO E event (list cell) :=
  match urlparse_hostname env url with
  | ParseException text =>
      io_ret [Str url; Str fou; Str (jiexi_shibai ++ text)%list; Int 0;
              Str []; Str []]
  | Hostname hostname =>
      let host := host_of hostname url in
      ping_ok <- check_ping host ;;
      start_time <- ask (time env) ;;
      r <- http_get url ;;
      match r with
      | Some response =>
          let redirect_url :=
            if status_code response =? 302 then
              match location response with
              | Some l => l
              | None => []
              end
            else [] in
          redirect_status_code <-
            (if truthy redirect_url then
               r2 <- http_get redirect_url ;;
               match r2 with
               | Some redirect_response =>
                   io_ret (Int (status_code redirect_response))
               | None => io_ret (Str fangwen_shibai)
               end
             else io_ret (Str [])) ;;
          end_time <- ask (time env) ;;
          io_ret [Str url; Str (if ping_ok then shi else fou);
                  Int (status_code response);
                  Float (elapsed_ms env start_time end_time);
                  Str redirect_url; redirect_status_code]
      | None =>
          io_ret [Str url; Str (if ping_ok then shi else fou);
                  Str (lit "N/A"); Int 0; Str []; Str []]
      end
  end.

End Model.

(** *** Reading a trace *)

Definition http_gets (tr : list event) : list ustr :=
  flat_map (fun e => match e with HttpGet u => [u] | _ => [] end) tr.

Definition pings (tr : list event) : list ustr :=
  flat_map (fun e => match e with Ping h => [h] | _ => [] end) tr.

(** *** An outside world for examples

    Every host answers the ping; "http://a" answers 302 with Location
    "http://b", every other URL answers 200; the clock is a counter. *)
Definition example_env : @Env nat nat nat := {|
  urlparse_hostname := fun _ => Hostname None;
  ping := fun _ e => (true, e);
  get := fun url e =>
    (Some (if eqb url (lit "http://a")
           then mkResponse 302 (Some (lit "http://b"))
           else mkResponse 200 None), e);
  time := fun e => (e, S e);
  elapsed_ms := fun t0 t1 => (t1 - t0)%nat
|}.

(** Line 79: the URLs are the stripped first cells of the rows that
    have one and where it is not blank. *)
Definition read_urls (rows : list (list ustr)) : list ustr :=
  flat_map (fun row =>
              match row with
              | [] => []
              | c :: _ => if truthy (strip c) then [strip c] else []
              end) rows.

(** *** The table of results (lines 126-154) *)

Definition headers : list ustr :=
  [[32593; 22336];
   [112; 105; 110; 103; 26159; 21542; 21487; 36798];
   [29366; 24577; 30721; 47; 38169; 35823];
   [21709; 24212; 26102; 38388; 40; 109; 115; 41];
   [37325; 23450; 21521; 22320; 22336];
   [37325; 23450; 21521; 29366; 24577; 30721]].

(** Line 131: [row[:6] + [''] * max(0, 6 - len(row))] *)
Definition fixed_row (row : list ustr) : list ustr :=
  (firstn 6 row
   ++ repeat [] (Z.to_nat (Z.max 0 (6 - Z.of_nat (List.length row)))))%list.

(** [max] of a first value and more values *)
Definition max_of (first : Z) (rest : list Z) : Z := fold_left Z.max rest first.

Definition len (s : ustr) : Z := Z.of_nat (List.length s).

(** Lines 138-141 *)
Definition col_widths (data : list (list ustr)) : list Z :=
  match data with
  | [] => [15; 8; 15; 12; 30; 15]
  | _ :: _ =>
      map (fun '(i, header) =>
             max_of (len header) (map (fun row => len (nth i row [])) data))
          (combine (seq 0 (List.length headers)) headers)
  end.

(** Lines 144 and 153: the cells of a row, each padded to the width of
    its column, joined by [" | "]. *)
Definition row_line (row : list ustr) (widths : list Z) : ustr :=
  join (lit " | ") (map (fun '(cell, width) => ljust width cell)
                        (combine row widths)).

(** Line 148 *)
Definition separator_line (widths : list Z) : ustr :=
  join (lit "-+") (map (fun w => repeat 45 (Z.to_nat w)) widths).

(** The lines of the table for the rows read back from the report:
    nothing for no rows at all; otherwise the first row is dropped, the
    fixed [headers] take its place and the other rows are the data. *)
Definition table (rows : list (list ustr)) : option (list ustr) :=
  match rows with
  | [] => None
  | _ :: rest =>
      let data := map fixed_row rest in
      let widths := col_widths data in
      Some (row_line headers widths :: separator_line widths
              :: map (fun row => row_line row widths) data)
  end.

End CheckUrls.

(** * Properties *)

(** ** Sets as insertion-ordered lists *)

Lemma set_add_In x y s : In y (set_add x s) <-> y = x \/ In y s.
Proof.
  unfold set_add. destruct (in_dec string_dec x s) as [Hin | Hout].
  - split; [now right | intros [-> | H]; assumption].
  - rewrite in_app_iff. simpl. intuition congruence.
Qed.

Lemma set_add_NoDup x s : NoDup s -> NoDup (set_add x s).
Proof.
  intros Hs. unfold set_add. destruct (in_dec string_dec x s) as [Hin | Hout].
  - exact Hs.
  - apply NoDup_app; [exact Hs | repeat constructor; intros [] | ].
    intros a Ha [<- | []]. exact (Hout Ha).
Qed.

Lemma set_add_length_old x s : In x s -> set_add x s = s.
Proof.
  intros Hin. unfold set_add. now destruct (in_dec string_dec x s).
Qed.

Lemma set_add_length_new x s :
  ~ In x s -> List.length (set_add x s) = S (List.length s).
Proof.
  intros Hout. unfold set_add. destruct (in_dec string_dec x s); [tauto | ].
  rewrite length_app. simpl. lia.
Qed.

Lemma set_add_incl x s pool : In x pool -> incl s pool -> incl (set_add x s) pool.
Proof.
  intros Hx Hs y Hy. apply set_add_In in Hy as [-> | Hy]; auto.
Qed.

Create HintDb pyset discriminated.
#[local] Hint Resolve set_add_NoDup set_add_incl NoDup_nil incl_nil_l : pyset.

(** A duplicate-free list drawn from [pool] is no longer than the
    duplicate-free part of [pool]. *)
Lemma distinct_bound (u pool : list string) :
  NoDup u -> incl u pool ->
  (List.length u <= List.length (nodup string_dec pool))%nat.
Proof.
  intros Hu Hincl. apply NoDup_incl_length; [exact Hu | ].
  intros x Hx. apply nodup_In. auto.
Qed.

(** Below that bound some element of [pool] is still missing. *)
Lemma missing_element (u pool : list string) :
  (List.length u < List.length (nodup string_dec pool))%nat ->
  exists x, In x pool /\ ~ In x u.
Proof.
  intros Hlt.
  destruct (Forall_Exists_dec (fun x => In x u)
              (fun x => in_dec string_dec x u) (nodup string_dec pool))
    as [Hall | Hex].
  - exfalso. rewrite Forall_forall in Hall.
    pose proof (NoDup_incl_length (NoDup_nodup string_dec pool) Hall). lia.
  - apply Exists_exists in Hex as (x & Hx & Hnot).
    exists x. split; [now apply nodup_In in Hx | exact Hnot].
Qed.

Lemma nodup_length_le (l : list string) :
  (List.length (nodup string_dec l) <= List.length l)%nat.
Proof.
  induction l as [| a l IH]; simpl; [lia | ].
  destruct (in_dec string_dec a l); simpl; lia.
Qed.

Lemma nodup_length_lt (l : list string) :
  ~ NoDup l -> (List.length (nodup string_dec l) < List.length l)%nat.
Proof.
  induction l as [| a l IH]; intros Hdup.
  - destruct Hdup. constructor.
  - simpl. pose proof (nodup_length_le l).
    destruct (in_dec string_dec a l) as [Hin | Hout]; simpl; [lia | ].
    assert (~ NoDup l) by (intros H'; apply Hdup; now constructor).
    specialize (IH H0). lia.
Qed.

Lemma nodup_length_eq (l : list string) :
  NoDup l -> List.length (nodup string_dec l) = List.length l.
Proof.
  intros H. now rewrite nodup_fixed_point.
Qed.

(** ** The [for] loop and the [while] loop *)

Section Loops.

Context {RT : Runtime} {SO : SetOrder}.

Lemma collect_spec ip_ranges : forall all_ips w,
  collect ip_ranges all_ips w =
  ((all_ips ++ host_pool ip_ranges)%list,
   mkWorld (rng w) (stdout w ++ range_warnings ip_ranges)).
Proof.
  induction ip_ranges as [| r rest IH]; intros all_ips w; simpl.
  - rewrite !app_nil_r. now destruct w.
  - destruct (ip_network r) as [net | e]; rewrite IH; simpl.
    + now rewrite app_assoc.
    + now rewrite <- app_assoc.
Qed.

Lemma host_pool_In ip_ranges a :
  In a (host_pool ip_ranges) <->
  exists ip_range network,
    In ip_range ip_ranges /\ ip_network ip_range = Ok network /\
    In a (host_strings network).
Proof.
  unfold host_pool. rewrite in_flat_map. split.
  - intros (r & Hr & Ha). destruct (ip_network r) as [net | e] eqn:E.
    + now exists r, net.
    + destruct Ha.
  - intros (r & net & Hr & E & Ha). exists r. now rewrite E.
Qed.

Lemma choice_In pool g : pool <> [] -> In (fst (choice pool g)) pool.
Proof.
  intros Hne. unfold choice.
  pose proof (@_randbelow_lt RT (List.length pool) g) as Hlt.
  destruct (_randbelow (List.length pool) g) as [i g']. simpl in *.
  apply nth_In, Hlt. destruct pool; [congruence | simpl; lia].
Qed.

Lemma draw_loop_unfold fuel pool t u g :
  draw_loop fuel pool t u g =
  if Z.of_nat (List.length u) <? t then
    match fuel with
    | O => None
    | S fuel' =>
        draw_loop fuel' pool t (set_add (fst (choice pool g)) u)
                  (snd (choice pool g))
    end
  else Some (u, g).
Proof.
  destruct fuel; simpl; [reflexivity | ].
  now destruct (choice pool g).
Qed.

(** What the loop hands back: a duplicate-free extension of its
    start, inside the pool, that has reached the target exactly. *)
Lemma draw_loop_inv pool t (Hne : pool <> []) : forall fuel u g u' g',
  draw_loop fuel pool t u g = Some (u', g') ->
  NoDup u -> incl u pool -> Z.of_nat (List.length u) <= t ->
  NoDup u' /\ incl u' pool /\ Z.of_nat (List.length u') = t.
Proof.
  induction fuel as [| fuel IH]; intros u g u' g' Hrun Hnd Hincl Hle;
    rewrite draw_loop_unfold in Hrun;
    destruct (Z.of_nat (List.length u) <? t) eqn:Hlt;
    try discriminate.
  - apply Z.ltb_ge in Hlt. injection Hrun as <- <-. repeat split; auto. lia.
  - apply Z.ltb_lt in Hlt. apply IH in Hrun; auto.
    + auto with pyset.
    + auto using choice_In with pyset.
    + destruct (in_dec string_dec (fst (choice pool g)) u) as [Hin | Hout].
      * rewrite set_add_length_old by exact Hin. lia.
      * rewrite set_add_length_new by exact Hout. lia.
  - apply Z.ltb_ge in Hlt. injection Hrun as <- <-. repeat split; auto. lia.
Qed.

(** More fuel does not change a finished run. *)
Lemma draw_loop_more_fuel pool t : forall fuel fuel' u g r,
  draw_loop fuel pool t u g = Some r -> (fuel <= fuel')%nat ->
  draw_loop fuel' pool t u g = Some r.
Proof.
  induction fuel as [| fuel IH]; intros fuel' u g r Hrun Hle;
    rewrite draw_loop_unfold in Hrun; rewrite draw_loop_unfold;
    destruct (Z.of_nat (List.length u) <? t); try discriminate; auto.
  destruct fuel' as [| fuel']; [lia | ]. apply IH; [exact Hrun | lia].
Qed.

(** The loop cannot finish when the target exceeds the number of
    distinct strings of the pool. *)
Lemma draw_loop_stuck pool t (Hne : pool <> []) :
  Z.of_nat (List.length (nodup string_dec pool)) < t ->
  forall fuel u g, NoDup u -> incl u pool -> draw_loop fuel pool t u g = None.
Proof.
  intros Hfew. induction fuel as [| fuel IH]; intros u g Hnd Hincl;
    rewrite draw_loop_unfold;
    pose proof (distinct_bound Hnd Hincl) as Hb;
    destruct (Z.of_nat (List.length u) <? t) eqn:Hlt;
    try (apply Z.ltb_ge in Hlt; lia); [reflexivity | ].
  apply IH; auto using choice_In with pyset.
Qed.

Lemma fair_step n g : fair n g -> fair n (snd (_randbelow n g)).
Proof.
  intros Hf k i Hi. destruct (Hf (S k) i Hi) as (j & Hj & Hd).
  destruct j as [| j]; [lia | ]. exists j. split; [lia | exact Hd].
Qed.

(** Under a fair generator the loop finishes whenever the pool holds
    enough distinct strings. *)
Lemma draw_loop_terminates pool t (Hne : pool <> []) :
  t <= Z.of_nat (List.length (nodup string_dec pool)) ->
  forall m u g,
    (Z.to_nat t - List.length u <= m)%nat ->
    NoDup u -> incl u pool -> fair (List.length pool) g ->
    exists fuel r, draw_loop fuel pool t u g = Some r.
Proof.
  intros Henough. induction m as [| m IHm]; intros u g Hm Hnd Hincl Hfair.
  - exists O, (u, g). rewrite draw_loop_unfold.
    destruct (Z.of_nat (List.length u) <? t) eqn:Hlt; [ | reflexivity].
    apply Z.ltb_lt in Hlt. lia.
  - destruct (Z.of_nat (List.length u) <? t) eqn:Hlt.
    2:{ exists O, (u, g). rewrite draw_loop_unfold. now rewrite Hlt. }
    assert (Hlt' := Hlt). apply Z.ltb_lt in Hlt'.
    destruct (@missing_element u pool) as (x & Hx & Hnew); [lia | ].
    destruct (In_nth pool x "" Hx) as (i & Hi & Hnth).
    destruct (Hfair O i Hi) as (j & _ & Hj).
    clear Hx. revert u g Hm Hnd Hincl Hfair Hlt Hlt' Hnew Hj.
    induction j as [| j IHj]; intros u g Hm Hnd Hincl Hfair Hlt Hlt' Hnew Hj.
    + destruct (IHm (set_add x u) (snd (_randbelow (List.length pool) g)))
        as (fuel & r & Hrun).
      * rewrite set_add_length_new by exact Hnew. lia.
      * now apply set_add_NoDup.
      * apply set_add_incl; [ | exact Hincl]. rewrite <- Hnth. now apply nth_In.
      * now apply fair_step.
      * exists (S fuel), r. rewrite draw_loop_unfold, Hlt.
        unfold nth_draw in Hj. simpl in Hj. unfold choice.
        destruct (_randbelow (List.length pool) g) as [i' g'].
        simpl in Hj. subst i'. cbn [fst snd] in *. now rewrite Hnth.
    + pose proof (@choice_In pool g Hne) as Hy.
      assert (Hstep : exists fuel r,
                 draw_loop fuel pool t (set_add (fst (choice pool g)) u)
                   (snd (choice pool g)) = Some r).
      { assert (Hrng : snd (choice pool g) =
                       snd (_randbelow (List.length pool) g)).
        { unfold choice. now destruct (_randbelow (List.length pool) g). }
        destruct (in_dec string_dec (fst (choice pool g)) u) as [Hin | Hout].
        - rewrite set_add_length_old by exact Hin. rewrite Hrng.
          apply IHj; auto. now apply fair_step.
        - rewrite Hrng. apply IHm.
          + rewrite set_add_length_new by exact Hout. lia.
          + now apply set_add_NoDup.
          + now apply set_add_incl.
          + now apply fair_step. }
      destruct Hstep as (fuel & r & Hrun).
      exists (S fuel), r. now rewrite draw_loop_unfold, Hlt.
Qed.

End Loops.

(** ** The sampler as a whole *)

Section Sampling.

Context {RT : Runtime} {SO : SetOrder}.

(** [generate_ips] on a valid count, in terms of the pool. *)
Lemma generate_ips_eq ip_ranges num_ips fuel w :
  10 <= num_ips <= 5000 ->
  generate_ips ip_ranges num_ips fuel w =
  let all_ips := host_pool ip_ranges in
  match all_ips with
  | [] => (Returned "",
           mkWorld (rng w) (stdout w ++ range_warnings ip_ranges))
  | _ :: _ =>
      let out := (stdout w ++ range_warnings ip_ranges
                    ++ clamp_warning all_ips num_ips)%list in
      match draw_loop fuel all_ips (effective_count all_ips num_ips) []
              (rng w) with
      | None => (OutOfFuel, mkWorld (rng w) out)
      | Some (unique_ips, g) =>
          (Returned (PyStr.join "," (set_iter unique_ips)), mkWorld g out)
      end
  end.
Proof.
  intros Hcount. unfold generate_ips.
  replace ((10 <=? num_ips) && (num_ips <=? 5000)) with true
    by (symmetry; apply andb_true_iff; split; apply Z.leb_le; lia).
  cbn [negb]. rewrite collect_spec, app_nil_l. cbv zeta.
  destruct (host_pool ip_ranges) as [| a pool] eqn:Hpool; [reflexivity | ].
  unfold effective_count, clamp_warning.
  destruct (Z.of_nat (List.length (a :: pool)) <? num_ips);
    unfold print; cbn [rng stdout]; rewrite <- ?app_assoc, ?app_nil_r;
    destruct (draw_loop _ _ _ _ _) as [[u g] | ]; reflexivity.
Qed.

(** [generate_ips] on a count outside [10, 5000]. *)
Lemma generate_ips_out_of_range ip_ranges num_ips fuel w :
  num_ips < 10 \/ num_ips > 5000 ->
  generate_ips ip_ranges num_ips fuel w = (RaisedValueError, w).
Proof.
  intros Hbad. unfold generate_ips.
  replace ((10 <=? num_ips) && (num_ips <=? 5000)) with false; [reflexivity | ].
  symmetry. apply andb_false_iff.
  destruct Hbad; [left; apply Z.leb_gt | right; apply Z.leb_gt]; lia.
Qed.

Lemma effective_count_le all_ips num_ips :
  effective_count all_ips num_ips <= Z.of_nat (List.length all_ips).
Proof.
  unfold effective_count.
  destruct (Z.of_nat (List.length all_ips) <? num_ips) eqn:E;
    [lia | apply Z.ltb_ge in E; lia].
Qed.

Lemma host_pool_filter ip_ranges :
  host_pool (filter parses ip_ranges) = host_pool ip_ranges.
Proof.
  induction ip_ranges as [| r rest IH]; [reflexivity | ].
  simpl. unfold parses at 1.
  destruct (ip_network r) as [net | e] eqn:E; simpl; [ | exact IH].
  now rewrite E, IH.
Qed.

Lemma range_warnings_In ip_ranges r e :
  In r ip_ranges -> ip_network r = Raise e ->
  In (InvalidRange r e) (range_warnings ip_ranges).
Proof.
  intros Hr E. unfold range_warnings. apply in_flat_map.
  exists r. split; [exact Hr | ]. rewrite E. now left.
Qed.

Lemma host_pool_all_invalid ip_ranges :
  (forall r, In r ip_ranges -> parses r = false) -> host_pool ip_ranges = [].
Proof.
  induction ip_ranges as [| r rest IH]; intros Hall; [reflexivity | ].
  simpl. pose proof (Hall r (or_introl eq_refl)) as Hr. unfold parses in Hr.
  destruct (ip_network r); [discriminate | ].
  apply IH. intros r' Hr'. apply Hall. now right.
Qed.

(** A finished run, under a fair generator, whenever the effective
    count does not exceed the number of distinct strings of the pool. *)
Lemma generate_ips_returns ip_ranges num_ips w :
  10 <= num_ips <= 5000 ->
  host_pool ip_ranges <> [] ->
  effective_count (host_pool ip_ranges) num_ips
    <= Z.of_nat (List.length (nodup string_dec (host_pool ip_ranges))) ->
  fair (List.length (host_pool ip_ranges)) (rng w) ->
  exists fuel unique_ips g,
    (forall fuel', (fuel <= fuel')%nat ->
       generate_ips ip_ranges num_ips fuel' w =
         (Returned (PyStr.join "," (set_iter unique_ips)),
          mkWorld g (stdout w ++ range_warnings ip_ranges
                       ++ clamp_warning (host_pool ip_ranges) num_ips))) /\
    NoDup unique_ips /\ incl unique_ips (host_pool ip_ranges) /\
    Z.of_nat (List.length unique_ips)
      = effective_count (host_pool ip_ranges) num_ips.
Proof.
  intros Hcount Hne Henough Hfair.
  assert (Hpos : 0 <= effective_count (host_pool ip_ranges) num_ips).
  { unfold effective_count. destruct (_ <? _); lia. }
  destruct (@draw_loop_terminates RT _ _ Hne Henough
              (Z.to_nat (effective_count (host_pool ip_ranges) num_ips))
              [] (rng w)) as (fuel & [u g] & Hrun);
    [simpl; lia | constructor | intros x [] | exact Hfair | ].
  destruct (@draw_loop_inv RT _ _ Hne _ _ _ _ _ Hrun) as (Hnd & Hincl & Hlen);
    [constructor | intros x [] | simpl; lia | ].
  exists fuel, u, g. split; [ | auto].
  intros fuel' Hle. rewrite generate_ips_eq by exact Hcount. cbv zeta.
  rewrite (draw_loop_more_fuel _ _ _ _ Hrun Hle).
  destruct (host_pool ip_ranges); [congruence | reflexivity].
Qed.

End Sampling.

(** ** The round-robin generator is fair *)

Lemma round_robin_rng_after n k : forall g,
  @rng_after round_robin n k g = (g + k)%nat.
Proof.
  induction k as [| k IH]; intros g; simpl; [lia | ].
  rewrite IH. lia.
Qed.

Lemma round_robin_fair n g : @fair round_robin n g.
Proof.
  intros k i Hi. exists (i + n * (g + k + 1) - g)%nat. split; [nia | ].
  unfold nth_draw. rewrite round_robin_rng_after. simpl.
  replace (g + (i + n * (g + k + 1) - g))%nat
    with (i + (g + k + 1) * n)%nat by nia.
  rewrite Nat.Div0.mod_add. now apply Nat.mod_small.
Qed.

(** ** The claims *)

Section Claims.

Context {RT : Runtime} {SO : SetOrder}.

(** C4. A count below 10 or above 5000 makes [generate_ips] raise its
    [ValueError] at once, whatever the ranges are (the empty list
    included): the world comes back untouched, so nothing was printed
    for any range and the generator was not used. *)
Theorem generate_ips_invalid_request ip_ranges num_ips fuel w :
  num_ips < 10 \/ num_ips > 5000 ->
  generate_ips ip_ranges num_ips fuel w = (RaisedValueError, w) /\
  stdout (snd (generate_ips ip_ranges num_ips fuel w)) = stdout w /\
  rng (snd (generate_ips ip_ranges num_ips fuel w)) = rng w.
Proof.
  intros Hbad. rewrite generate_ips_out_of_range by exact Hbad.
  repeat split.
Qed.

(** C6. With a count in [10, 5000] and ranges that leave the pool
    empty, [generate_ips] returns the empty string (it does not
    raise), having printed only the warnings of the ranges it
    skipped. *)
Theorem generate_ips_empty_pool ip_ranges num_ips fuel w :
  10 <= num_ips <= 5000 ->
  host_pool ip_ranges = [] ->
  generate_ips ip_ranges num_ips fuel w =
    (Returned "", mkWorld (rng w) (stdout w ++ range_warnings ip_ranges)).
Proof.
  intros Hcount Hempty. rewrite generate_ips_eq by exact Hcount.
  cbv zeta. now rewrite Hempty.
Qed.

(** C7. Whenever [generate_ips] returns a string, that string is the
    comma-join of a list of pool addresses without duplicates, no
    longer than the pool. *)
Theorem generate_ips_result_consistent ip_ranges num_ips fuel w s w' :
  generate_ips ip_ranges num_ips fuel w = (Returned s, w') ->
  exists l,
    s = PyStr.join "," l /\ NoDup l /\
    incl l (host_pool ip_ranges) /\
    (List.length l <= List.length (host_pool ip_ranges))%nat.
Proof.
  intros Hrun.
  destruct (Z_lt_ge_dec num_ips 10) as [Hlo | Hlo];
    [rewrite generate_ips_out_of_range in Hrun by lia; discriminate | ].
  destruct (Z_gt_le_dec num_ips 5000) as [Hhi | Hhi];
    [rewrite generate_ips_out_of_range in Hrun by lia; discriminate | ].
  rewrite generate_ips_eq in Hrun by lia. cbv zeta in Hrun.
  destruct (host_pool ip_ranges) as [| a pool] eqn:Hpool.
  - injection Hrun as <- _. exists []. repeat split; auto using NoDup_nil.
    intros x [].
  - destruct (draw_loop _ _ _ _ _) as [[u g] | ] eqn:Hloop; [ | discriminate].
    injection Hrun as <- _.
    pose proof (effective_count_le (a :: pool) num_ips) as Hle.
    apply draw_loop_inv in Hloop as (Hnd & Hincl & Hlen);
      [ | discriminate | constructor | intros x [] | ].
    2:{ unfold effective_count. simpl List.length.
        destruct (_ <? _); lia. }
    pose proof (set_iter_perm Hnd) as Hperm.
    exists (set_iter u). repeat split.
    + apply (Permutation_NoDup (Permutation_sym Hperm) Hnd).
    + intros x Hx. apply Hincl. apply (Permutation_in _ Hperm Hx).
    + rewrite (Permutation_length Hperm). lia.
Qed.

(** C8. With a count in [10, 5000], a range that does not parse never
    aborts the call: the call does not raise, every such range is
    named in a printed warning, and the outcome and the generator are
    those of the call on the ranges that parse. *)
Theorem generate_ips_skips_invalid ip_ranges num_ips fuel w :
  10 <= num_ips <= 5000 ->
  fst (generate_ips ip_ranges num_ips fuel w) <> RaisedValueError /\
  (forall r e, In r ip_ranges -> ip_network r = Raise e ->
     In (InvalidRange r e)
        (stdout (snd (generate_ips ip_ranges num_ips fuel w)))) /\
  fst (generate_ips ip_ranges num_ips fuel w)
    = fst (generate_ips (filter parses ip_ranges) num_ips fuel w) /\
  rng (snd (generate_ips ip_ranges num_ips fuel w))
    = rng (snd (generate_ips (filter parses ip_ranges) num_ips fuel w)).
Proof.
  intros Hcount. rewrite !generate_ips_eq by exact Hcount. cbv zeta.
  rewrite host_pool_filter.
  destruct (host_pool ip_ranges) as [| a pool].
  - cbn [fst snd stdout rng]. repeat split; [discriminate | ].
    intros r e Hr E. apply in_or_app. right. now apply range_warnings_In.
  - destruct (draw_loop _ _ _ _ _) as [[u g] | ];
      cbn [fst snd stdout rng]; (repeat split; [discriminate | ]);
      intros r e Hr E; apply in_or_app; right; apply in_or_app; left;
      now apply range_warnings_In.
Qed.

End Claims.

(** ** Two invocations *)

Section Determinism.

Context {RT : Runtime}.

(** C9. Two calls with the same ranges and count that start from the
    same generator state, whatever was printed before and however much
    fuel each run is given, leave the generator in the same state and
    either both raise or return the join of the same set of addresses,
    each in the iteration order of its own process; when the two
    processes iterate sets in the same order, the strings are equal. *)
Theorem generate_ips_deterministic (SO1 SO2 : SetOrder)
    ip_ranges num_ips fuel1 fuel2 w1 w2 :
  rng w1 = rng w2 ->
  fst (@generate_ips RT SO1 ip_ranges num_ips fuel1 w1) <> OutOfFuel ->
  fst (@generate_ips RT SO2 ip_ranges num_ips fuel2 w2) <> OutOfFuel ->
  rng (snd (@generate_ips RT SO1 ip_ranges num_ips fuel1 w1))
    = rng (snd (@generate_ips RT SO2 ip_ranges num_ips fuel2 w2)) /\
  ((fst (@generate_ips RT SO1 ip_ranges num_ips fuel1 w1) = RaisedValueError /\
    fst (@generate_ips RT SO2 ip_ranges num_ips fuel2 w2) = RaisedValueError) \/
   exists unique_ips,
     NoDup unique_ips /\
     fst (@generate_ips RT SO1 ip_ranges num_ips fuel1 w1)
       = Returned (PyStr.join "," (@set_iter SO1 unique_ips)) /\
     fst (@generate_ips RT SO2 ip_ranges num_ips fuel2 w2)
       = Returned (PyStr.join "," (@set_iter SO2 unique_ips))) /\
  ((forall l, @set_iter SO1 l = @set_iter SO2 l) ->
   fst (@generate_ips RT SO1 ip_ranges num_ips fuel1 w1)
     = fst (@generate_ips RT SO2 ip_ranges num_ips fuel2 w2)).
Proof.
  intros Hrng.
  assert (Hout : num_ips < 10 \/ num_ips > 5000 \/ 10 <= num_ips <= 5000) by lia.
  destruct Hout as [Hout | [Hout | Hcount]];
    try (rewrite !generate_ips_out_of_range by lia; intros _ _;
         cbn [fst snd]; now auto).
  rewrite (@generate_ips_eq RT SO1), (@generate_ips_eq RT SO2) by exact Hcount.
  cbv zeta. rewrite <- Hrng.
  destruct (host_pool ip_ranges) as [| a pool] eqn:Hpool.
  - intros _ _. cbn [fst snd rng]. split; [reflexivity | ]. split; [ | reflexivity].
    right. exists []. split; [constructor | ].
    rewrite (Permutation_nil (Permutation_sym (@set_iter_perm SO1 [] (NoDup_nil _)))).
    rewrite (Permutation_nil (Permutation_sym (@set_iter_perm SO2 [] (NoDup_nil _)))).
    now split.
  - destruct (draw_loop fuel1 _ _ _ _) as [r1 | ] eqn:H1.
    2:{ intros Hbad. now destruct Hbad. }
    destruct (draw_loop fuel2 _ _ _ _) as [r2 | ] eqn:H2.
    2:{ intros _ Hbad. now destruct Hbad. }
    intros _ _.
    pose proof H1 as Hinv.
    apply draw_loop_more_fuel with (fuel' := Nat.max fuel1 fuel2) in H1;
      [ | lia].
    apply draw_loop_more_fuel with (fuel' := Nat.max fuel1 fuel2) in H2;
      [ | lia].
    rewrite H1 in H2. injection H2 as <-. destruct r1 as [u g].
    cbn [fst snd rng]. split; [reflexivity | ].
    apply draw_loop_inv in Hinv as (Hnd & _);
      [ | discriminate | constructor | intros x [] | ].
    2:{ unfold effective_count. simpl List.length. destruct (_ <? _); lia. }
    split.
    + right. exists u. now repeat split.
    + intros Hsame. now rewrite Hsame.
Qed.

End Determinism.

(** ** Pools with duplicates, and exhaustion *)

Section Exhaustion.

Context {RT : Runtime} {SO : SetOrder}.

(** When the effective count exceeds the number of distinct strings
    of the pool, the [while] loop never ends: whatever the fuel, the
    run is still inside it. *)
Lemma generate_ips_stuck ip_ranges num_ips fuel w :
  10 <= num_ips <= 5000 ->
  Z.of_nat (List.length (nodup string_dec (host_pool ip_ranges)))
    < effective_count (host_pool ip_ranges) num_ips ->
  generate_ips ip_ranges num_ips fuel w =
    (OutOfFuel,
     mkWorld (rng w) (stdout w ++ range_warnings ip_ranges
                        ++ clamp_warning (host_pool ip_ranges) num_ips)).
Proof.
  intros Hcount Hfew. rewrite generate_ips_eq by exact Hcount. cbv zeta.
  destruct (host_pool ip_ranges) as [| a pool] eqn:Hpool.
  - unfold effective_count in Hfew. simpl in Hfew.
    destruct (0 <? num_ips) eqn:E; [lia | apply Z.ltb_ge in E; lia].
  - rewrite (@draw_loop_stuck RT (a :: pool) _ ltac:(discriminate) Hfew);
      [reflexivity | constructor | intros x []].
Qed.

(** A request for more than the pool holds, on a pool without
    duplicates and under a fair generator, returns every string of the
    pool exactly once, after the clamp warning. *)
Lemma generate_ips_exhaustive ip_ranges num_ips w :
  10 <= num_ips <= 5000 ->
  host_pool ip_ranges <> [] ->
  Z.of_nat (List.length (host_pool ip_ranges)) < num_ips ->
  NoDup (host_pool ip_ranges) ->
  fair (List.length (host_pool ip_ranges)) (rng w) ->
  exists fuel l g,
    generate_ips ip_ranges num_ips fuel w =
      (Returned (PyStr.join "," l),
       mkWorld g (stdout w ++ range_warnings ip_ranges
                    ++ [CountExceedsPool num_ips
                          (List.length (host_pool ip_ranges))])) /\
    Permutation l (host_pool ip_ranges).
Proof.
  intros Hcount Hne Hmore Hnd Hfair.
  assert (Heff : effective_count (host_pool ip_ranges) num_ips
                 = Z.of_nat (List.length (host_pool ip_ranges))).
  { unfold effective_count.
    now replace (_ <? _) with true by (symmetry; now apply Z.ltb_lt). }
  assert (Hwarn : clamp_warning (host_pool ip_ranges) num_ips
                  = [CountExceedsPool num_ips
                       (List.length (host_pool ip_ranges))]).
  { unfold clamp_warning.
    now replace (_ <? _) with true by (symmetry; now apply Z.ltb_lt). }
  destruct (@generate_ips_returns RT SO ip_ranges num_ips w Hcount Hne)
    as (fuel & u & g & Hrun & Hu & Hincl & Hlen); [ | exact Hfair | ].
  { rewrite Heff, nodup_length_eq by exact Hnd. lia. }
  exists fuel, (set_iter u), g. rewrite (Hrun fuel (le_n fuel)), Hwarn.
  split; [reflexivity | ].
  rewrite (set_iter_perm Hu).
  apply NoDup_Permutation_bis; [exact Hu | lia | exact Hincl].
Qed.

(** The pool of the spec's example of exhaustion. *)
Lemma host_pool_slash30 :
  host_pool ["192.168.1.0/30"] = ["192.168.1.1"; "192.168.1.2"].
Proof. reflexivity. Qed.

(** The example of exhaustion: one /30 and a count of 10 give exactly
    its two hosts, in either order, after the clamp warning. *)
Lemma generate_ips_slash30 w :
  fair 2 (rng w) ->
  exists fuel s g,
    generate_ips ["192.168.1.0/30"] 10 fuel w =
      (Returned s, mkWorld g (stdout w ++ [CountExceedsPool 10 2])) /\
    (s = "192.168.1.1,192.168.1.2" \/ s = "192.168.1.2,192.168.1.1").
Proof.
  intros Hfair.
  destruct (@generate_ips_exhaustive ["192.168.1.0/30"] 10 w)
    as (fuel & l & g & Hrun & Hperm);
    rewrite ?host_pool_slash30;
    [lia | discriminate | simpl; lia | | exact Hfair | ].
  { repeat constructor; simpl; intuition discriminate. }
  exists fuel, (PyStr.join "," l), g. split; [exact Hrun | ].
  apply Permutation_sym in Hperm.
  apply Permutation_length_2_inv in Hperm as [-> | ->]; auto.
Qed.

(** C2. A ranges list whose networks overlap can keep the draw loop
    from ever reaching the effective count: with the same /30 given
    twice and a count of 10, the pool has four entries but two distinct
    addresses, the count is clamped to four, and the call never
    returns, whatever the generator does. *)
Theorem generate_ips_overlap_diverges fuel w :
  fst (generate_ips ["192.168.1.0/30"; "192.168.1.0/30"] 10 fuel w)
    = OutOfFuel.
Proof.
  rewrite generate_ips_stuck; [reflexivity | lia | ].
  change (host_pool ["192.168.1.0/30"; "192.168.1.0/30"])
    with ["192.168.1.1"; "192.168.1.2"; "192.168.1.1"; "192.168.1.2"].
  vm_compute. reflexivity.
Qed.

(** C3. A count above the size of a pool that holds some address
    twice is clamped to that size, the warning is printed, and then
    the call never returns: the full pool is not handed back. *)
Theorem generate_ips_exhaustive_overlap ip_ranges num_ips fuel w :
  10 <= num_ips <= 5000 ->
  Z.of_nat (List.length (host_pool ip_ranges)) < num_ips ->
  ~ NoDup (host_pool ip_ranges) ->
  generate_ips ip_ranges num_ips fuel w =
    (OutOfFuel,
     mkWorld (rng w)
       (stdout w ++ range_warnings ip_ranges
          ++ [CountExceedsPool num_ips (List.length (host_pool ip_ranges))])).
Proof.
  intros Hcount Hmore Hdup.
  pose proof (nodup_length_lt Hdup) as Hlt.
  rewrite generate_ips_stuck; [ | exact Hcount | ];
    unfold clamp_warning, effective_count;
    replace (_ <? _) with true by (symmetry; now apply Z.ltb_lt);
    [reflexivity | lia].
Qed.

End Exhaustion.

(** ** Printing and parsing IPv4 networks *)

Lemma contains_app c s1 s2 :
  PyStr.contains c (s1 ++ s2) = PyStr.contains c s1 || PyStr.contains c s2.
Proof.
  induction s1 as [| a s1 IH]; simpl; [reflexivity | ].
  now rewrite IH, orb_assoc.
Qed.

Lemma contains_nonempty c s : PyStr.contains c s = true -> String.eqb s "" = false.
Proof. destruct s; [discriminate | reflexivity]. Qed.

Lemma split_no_sep sep s :
  PyStr.contains sep s = false -> PyStr.split sep s = [s].
Proof.
  induction s as [| c s IH]; simpl; [reflexivity | ].
  intros H. apply orb_false_iff in H as [Hc Hs].
  now rewrite Hc, (IH Hs).
Qed.

Lemma split_app sep s1 s2 :
  PyStr.contains sep s1 = false ->
  PyStr.split sep (s1 ++ String sep s2) = s1 :: PyStr.split sep s2.
Proof.
  induction s1 as [| c s1 IH]; simpl.
  - intros _. now rewrite Ascii.eqb_refl.
  - intros H. apply orb_false_iff in H as [Hc Hs].
    now rewrite Hc, (IH Hs).
Qed.

(** Every byte prints as an octet that parses back to it and holds
    neither a dot nor a slash (checked on all 256 of them). *)
Lemma octets_checked :
  forallb (fun b =>
             match _parse_octet (PyStr.str b) with
             | Some b' => b' =? b
             | None => false
             end
             && negb (PyStr.contains "." (PyStr.str b))
             && negb (PyStr.contains "/" (PyStr.str b)))
          (map Z.of_nat (seq 0 256)) = true.
Proof. vm_compute. reflexivity. Qed.

Lemma octet_roundtrip b :
  0 <= b < 256 ->
  _parse_octet (PyStr.str b) = Some b /\
  PyStr.contains "." (PyStr.str b) = false /\
  PyStr.contains "/" (PyStr.str b) = false.
Proof.
  intros Hb. pose proof octets_checked as H.
  rewrite forallb_forall in H. specialize (H b).
  assert (Hin : In b (map Z.of_nat (seq 0 256))).
  { apply in_map_iff. exists (Z.to_nat b). split; [lia | ].
    apply in_seq. lia. }
  apply H in Hin. apply andb_true_iff in Hin as [Hin H3].
  apply andb_true_iff in Hin as [H1 H2].
  apply negb_true_iff in H2, H3.
  destruct (_parse_octet (PyStr.str b)) as [b' | ]; [ | discriminate].
  apply Z.eqb_eq in H1. now subst b'.
Qed.

(** Every prefix length from 0 to 32 prints as a string that
    [_make_netmask] reads back, whose netmask and hostmask split the 32
    bits between them (checked on all 33 of them). *)
Lemma prefixes_checked :
  forallb (fun p =>
             let nm := _ip_int_from_prefix p in
             match _make_netmask (PyStr.str p) with
             | Ok (nm', p') => (nm' =? nm) && (p' =? p)
             | Raise _ => false
             end
             && negb (PyStr.contains "/" (PyStr.str p))
             && (Z.land nm (Z.lxor nm _ALL_ONES) =? 0)
             && (Z.lor nm (Z.lxor nm _ALL_ONES) =? _ALL_ONES))
          (map Z.of_nat (seq 0 33)) = true.
Proof. vm_compute. reflexivity. Qed.

Lemma prefix_roundtrip p :
  0 <= p <= 32 ->
  _make_netmask (PyStr.str p) = Ok (_ip_int_from_prefix p, p) /\
  PyStr.contains "/" (PyStr.str p) = false /\
  Z.land (_ip_int_from_prefix p) (Z.lxor (_ip_int_from_prefix p) _ALL_ONES) = 0 /\
  Z.lor (_ip_int_from_prefix p) (Z.lxor (_ip_int_from_prefix p) _ALL_ONES)
    = _ALL_ONES.
Proof.
  intros Hp. pose proof prefixes_checked as H.
  rewrite forallb_forall in H. specialize (H p).
  assert (Hin : In p (map Z.of_nat (seq 0 33))).
  { apply in_map_iff. exists (Z.to_nat p). split; [lia | ].
    apply in_seq. lia. }
  apply H in Hin. cbv zeta in Hin.
  repeat (apply andb_true_iff in Hin as [Hin ?]).
  destruct (_make_netmask (PyStr.str p)) as [[nm' p'] | ]; [ | discriminate].
  apply andb_true_iff in Hin as [Hn Hp'].
  apply Z.eqb_eq in Hn, Hp'. subst nm' p'.
  repeat split; auto using Z.eqb_eq.
  - now apply negb_true_iff.
  - now apply Z.eqb_eq.
  - now apply Z.eqb_eq.
Qed.

Lemma to_bytes_range a : Forall (fun b => 0 <= b < 256) (to_bytes a).
Proof.
  unfold to_bytes. change 255 with (Z.ones 8).
  repeat constructor; rewrite Z.land_ones by lia;
    apply Z.mod_pos_bound; lia.
Qed.

Lemma from_bytes_to_bytes a : 0 <= a < 2 ^ 32 -> from_bytes (to_bytes a) = a.
Proof.
  intros Ha. unfold from_bytes, to_bytes. cbn [fold_left].
  change 255 with (Z.ones 8).
  rewrite !Z.land_ones, !Z.shiftr_div_pow2 by lia.
  change (2 ^ 8) with 256. change (2 ^ 16) with (256 * 256).
  change (2 ^ 24) with (256 * 256 * 256).
  change (2 ^ 32) with (256 * 256 * 256 * 256) in Ha.
  rewrite <- !Z.div_div by lia.
  pose proof (Z.div_mod a 256 ltac:(lia)) as E1.
  pose proof (Z.div_mod (a / 256) 256 ltac:(lia)) as E2.
  pose proof (Z.div_mod (a / 256 / 256) 256 ltac:(lia)) as E3.
  assert (E4 : 0 <= a / 256 / 256 / 256 < 256).
  { split; [repeat apply Z.div_pos; lia | ].
    repeat (apply Z.div_lt_upper_bound; [lia | ]). lia. }
  rewrite (Z.mod_small _ _ E4).
  generalize dependent (a / 256 / 256 / 256). intros q3.
  generalize dependent (a / 256 / 256). intros q2.
  generalize dependent (a / 256). intros q1 *.
  generalize (a mod 256) (q1 mod 256) (q2 mod 256). lia.
Qed.

(** Four octets joined by dots parse back to the bytes they print. *)
Lemma IPv4Address_of_octets b1 b2 b3 b4 :
  0 <= b1 < 256 -> 0 <= b2 < 256 -> 0 <= b3 < 256 -> 0 <= b4 < 256 ->
  IPv4Address (PyStr.join "." (map PyStr.str [b1; b2; b3; b4]))
    = Ok (from_bytes [b1; b2; b3; b4]) /\
  PyStr.contains "/" (PyStr.join "." (map PyStr.str [b1; b2; b3; b4])) = false.
Proof.
  intros H1 H2 H3 H4.
  destruct (octet_roundtrip H1) as (P1 & D1 & S1).
  destruct (octet_roundtrip H2) as (P2 & D2 & S2).
  destruct (octet_roundtrip H3) as (P3 & D3 & S3).
  destruct (octet_roundtrip H4) as (P4 & D4 & S4).
  cbn [map PyStr.join].
  generalize dependent (PyStr.str b1). intros s1 P1 D1 S1.
  generalize dependent (PyStr.str b2). intros s2 P2 D2 S2.
  generalize dependent (PyStr.str b3). intros s3 P3 D3 S3.
  generalize dependent (PyStr.str b4). intros s4 P4 D4 S4.
  assert (Hslash : PyStr.contains "/"
                     (s1 ++ "." ++ s2 ++ "." ++ s3 ++ "." ++ s4) = false).
  { rewrite !contains_app, S1, S2, S3, S4. reflexivity. }
  split; [ | exact Hslash].
  unfold IPv4Address. rewrite Hslash. unfold _ip_int_from_string.
  rewrite contains_nonempty with (c := "."%char)
    by (rewrite !contains_app; cbn [PyStr.contains Ascii.eqb Bool.eqb orb];
        now rewrite !orb_true_r).
  change ("." ++ s2 ++ "." ++ s3 ++ "." ++ s4)
    with (String "." (s2 ++ String "." (s3 ++ String "." s4))).
  rewrite !split_app, split_no_sep by assumption.
  cbn [List.length Nat.eqb negb parse_octets].
  now rewrite P1, P2, P3, P4.
Qed.

(** [IPv4Address(str(IPv4Address(a)))] is [a] again. *)
Lemma IPv4Address_roundtrip a :
  0 <= a < 2 ^ 32 ->
  IPv4Address (_string_from_ip_int a) = Ok a /\
  PyStr.contains "/" (_string_from_ip_int a) = false.
Proof.
  intros Ha. pose proof (to_bytes_range a) as Hr.
  rewrite <- (from_bytes_to_bytes Ha) at 2.
  unfold _string_from_ip_int, to_bytes in *.
  apply IPv4Address_of_octets.
  - exact (Forall_inv Hr).
  - exact (Forall_inv (Forall_inv_tail Hr)).
  - exact (Forall_inv (Forall_inv_tail (Forall_inv_tail Hr))).
  - exact (Forall_inv (Forall_inv_tail (Forall_inv_tail (Forall_inv_tail Hr)))).
Qed.

(** The netmask test of [IPv4Network.__init__] fails exactly when the
    address has a bit inside the hostmask. *)
Lemma host_bits_set_iff a p :
  0 <= a < 2 ^ 32 -> 0 <= p <= 32 ->
  Z.land a (netmask (mkIPv4Network a p)) = a <->
  Z.land a (hostmask (mkIPv4Network a p)) = 0.
Proof.
  intros Ha Hp. unfold hostmask, netmask. cbn [prefixlen].
  destruct (prefix_roundtrip Hp) as (_ & _ & Hdisj & Hcover).
  set (nm := _ip_int_from_prefix p) in *.
  set (hm := Z.lxor nm _ALL_ONES) in *.
  split; intros H.
  - rewrite <- H, <- Z.land_assoc, Hdisj. apply Z.land_0_r.
  - assert (Hall : Z.land a _ALL_ONES = a).
    { change _ALL_ONES with (Z.ones 32).
      rewrite Z.land_ones by lia. apply Z.mod_small. lia. }
    rewrite <- Hall at 2. rewrite <- Hcover, Z.land_lor_distr_r, H.
    symmetry. apply Z.lor_0_r.
Qed.

(** [IPv4Network] applied to the CIDR notation of an address and a
    prefix length. *)
Lemma IPv4Network_init_cidr a p :
  0 <= a < 2 ^ 32 -> 0 <= p <= 32 ->
  IPv4Network_init (cidr a p) =
  if Z.land a (_ip_int_from_prefix p) =? a
  then Ok (mkIPv4Network a p) else Raise HostBitsSet.
Proof.
  intros Ha Hp.
  destruct (IPv4Address_roundtrip Ha) as (Haddr & Hs1).
  destruct (prefix_roundtrip Hp) as (Hmask & Hs2 & _).
  unfold IPv4Network_init, _split_addr_prefix, cidr.
  generalize dependent (_string_from_ip_int a). intros s1 Haddr Hs1.
  generalize dependent (PyStr.str p). intros s2 Hmask Hs2.
  change ("/" ++ s2) with (String "/" s2).
  rewrite split_app, split_no_sep by assumption.
  cbn [bind]. rewrite Haddr. cbn [bind]. rewrite Hmask. cbn [bind].
  now destruct (Z.land a (_ip_int_from_prefix p) =? a).
Qed.

Section Strictness.

Context {RT : Runtime} {SO : SetOrder}.

Lemma host_pool_app l1 l2 :
  host_pool (l1 ++ l2) = (host_pool l1 ++ host_pool l2)%list.
Proof. apply flat_map_app. Qed.

Lemma generate_ips_warnings ip_ranges num_ips fuel w e :
  10 <= num_ips <= 5000 ->
  In e (range_warnings ip_ranges) ->
  In e (stdout (snd (generate_ips ip_ranges num_ips fuel w))).
Proof.
  intros Hcount He. rewrite generate_ips_eq by exact Hcount. cbv zeta.
  destruct (host_pool ip_ranges) as [| x pool];
    [ | destruct (draw_loop _ _ _ _ _) as [[u g] | ]];
    cbn [snd stdout]; rewrite ?app_assoc, !in_app_iff; auto.
Qed.

(** C10. Parsing is strict: the CIDR notation of an IPv4 address
    that has host bits set under its prefix length (such as
    192.168.1.1/24) makes [ip_network] raise; wherever it stands in
    the ranges it adds nothing to the pool, and a warning that names
    it is printed. *)
Theorem ip_network_strict a p :
  0 <= a < 2 ^ 32 -> 0 <= p <= 32 ->
  Z.land a (hostmask (mkIPv4Network a p)) <> 0 ->
  ip_network (cidr a p) = Raise HostBitsSet /\
  forall before after,
    host_pool (before ++ cidr a p :: after) = host_pool (before ++ after) /\
    forall num_ips fuel w,
      10 <= num_ips <= 5000 ->
      In (InvalidRange (cidr a p) HostBitsSet)
         (stdout (snd (generate_ips (before ++ cidr a p :: after)
                         num_ips fuel w))).
Proof.
  intros Ha Hp Hbits.
  assert (Hraise : ip_network (cidr a p) = Raise HostBitsSet).
  { unfold ip_network. rewrite IPv4Network_init_cidr by assumption.
    destruct (Z.land a (_ip_int_from_prefix p) =? a) eqn:E; [ | reflexivity].
    apply Z.eqb_eq in E. now apply host_bits_set_iff in E. }
  split; [exact Hraise | ]. intros before after. split.
  - rewrite !host_pool_app. f_equal. unfold host_pool. cbn [flat_map].
    now rewrite Hraise.
  - intros num_ips fuel w Hcount. apply generate_ips_warnings; [exact Hcount | ].
    apply range_warnings_In; [ | exact Hraise].
    apply in_or_app. right. now left.
Qed.

(** C1. With a count in [10, 5000], a pool that holds at least that
    many distinct addresses and a fair generator, [generate_ips]
    returns (from some amount of fuel on) the comma-join of exactly that
    many distinct strings, each a host address of a range that parsed. *)
Theorem generate_ips_sample ip_ranges num_ips w :
  10 <= num_ips <= 5000 ->
  num_ips <= Z.of_nat (List.length (nodup string_dec (host_pool ip_ranges))) ->
  fair (List.length (host_pool ip_ranges)) (rng w) ->
  exists fuel l w',
    (forall fuel', (fuel <= fuel')%nat ->
       generate_ips ip_ranges num_ips fuel' w
         = (Returned (PyStr.join "," l), w')) /\
    NoDup l /\ Z.of_nat (List.length l) = num_ips /\
    forall address, In address l ->
      exists ip_range network,
        In ip_range ip_ranges /\ ip_network ip_range = Ok network /\
        In address (host_strings network).
Proof.
  intros Hcount Henough Hfair.
  pose proof (nodup_length_le (host_pool ip_ranges)) as Hle.
  assert (Heff : effective_count (host_pool ip_ranges) num_ips = num_ips).
  { unfold effective_count.
    destruct (_ <? _) eqn:E; [apply Z.ltb_lt in E; lia | reflexivity]. }
  destruct (@generate_ips_returns RT SO ip_ranges num_ips w Hcount)
    as (fuel & u & g & Hrun & Hu & Hincl & Hlen);
    [ | rewrite Heff; exact Henough | exact Hfair | ].
  { intros Hnil. rewrite Hnil in Henough. simpl in Henough. lia. }
  pose proof (set_iter_perm Hu) as Hperm.
  eexists fuel, (set_iter u), _. split; [exact Hrun | ]. repeat split.
  - apply (Permutation_NoDup (Permutation_sym Hperm) Hu).
  - rewrite (Permutation_length Hperm). congruence.
  - intros address Hin. apply host_pool_In, Hincl.
    apply (Permutation_in _ Hperm Hin).
Qed.


End Strictness.

(** ** The claims at concrete inputs *)

Lemma generate_ips_invalid_request_witness :
  @generate_ips round_robin insertion_order ["not-a-cidr"] 9 0 w0
    = (RaisedValueError, w0) /\
  stdout (snd (@generate_ips round_robin insertion_order ["not-a-cidr"] 9 0 w0))
    = stdout w0 /\
  rng (snd (@generate_ips round_robin insertion_order ["not-a-cidr"] 9 0 w0))
    = rng w0.
Proof.
  apply (@generate_ips_invalid_request round_robin insertion_order
           ["not-a-cidr"] 9 0 w0).
  left. lia.
Defined.

Lemma generate_ips_empty_pool_witness :
  @host_pool round_robin ["not-a-cidr"] = [] /\
  @generate_ips round_robin insertion_order ["not-a-cidr"] 20 0 w0 =
    (Returned "",
     @mkWorld round_robin O [InvalidRange "not-a-cidr" NotIPv4OrIPv6]).
Proof.
  split; [reflexivity | ].
  apply (@generate_ips_empty_pool round_robin insertion_order ["not-a-cidr"] 20 0 w0);
    [lia | reflexivity].
Defined.

Lemma generate_ips_result_consistent_witness :
  exists l,
    "192.168.1.1,192.168.1.2" = PyStr.join "," l /\ NoDup l /\
    incl l (@host_pool round_robin ["192.168.1.0/30"]) /\
    (List.length l <= List.length (@host_pool round_robin ["192.168.1.0/30"]))%nat.
Proof.
  apply (@generate_ips_result_consistent round_robin insertion_order ["192.168.1.0/30"] 10 5 w0
           "192.168.1.1,192.168.1.2"
           (@mkWorld round_robin 2%nat [CountExceedsPool 10 2])).
  reflexivity.
Defined.

Lemma generate_ips_skips_invalid_witness :
  fst (@generate_ips round_robin insertion_order ["192.168.1.1/24"; "10.0.0.0/28"] 10 20 w0)
    <> RaisedValueError /\
  (forall r e, In r ["192.168.1.1/24"; "10.0.0.0/28"] ->
     @ip_network round_robin r = Raise e ->
     In (InvalidRange r e)
        (stdout (snd (@generate_ips round_robin insertion_order
                        ["192.168.1.1/24"; "10.0.0.0/28"] 10 20 w0)))) /\
  fst (@generate_ips round_robin insertion_order ["192.168.1.1/24"; "10.0.0.0/28"] 10 20 w0)
    = fst (@generate_ips round_robin insertion_order
             (filter (@parses round_robin) ["192.168.1.1/24"; "10.0.0.0/28"]) 10 20 w0) /\
  rng (snd (@generate_ips round_robin insertion_order ["192.168.1.1/24"; "10.0.0.0/28"] 10 20 w0))
    = rng (snd (@generate_ips round_robin insertion_order
                  (filter (@parses round_robin) ["192.168.1.1/24"; "10.0.0.0/28"]) 10 20 w0)).
Proof.
  apply (@generate_ips_skips_invalid round_robin insertion_order
           ["192.168.1.1/24"; "10.0.0.0/28"] 10 20 w0).
  lia.
Defined.

Lemma generate_ips_deterministic_witness :
  rng (snd (@generate_ips round_robin insertion_order ["10.0.0.0/28"] 12 20 w0))
    = rng (snd (@generate_ips round_robin reverse_order ["10.0.0.0/28"] 12 30
                  (@mkWorld round_robin O [CountExceedsPool 10 2]))) /\
  ((fst (@generate_ips round_robin insertion_order ["10.0.0.0/28"] 12 20 w0)
      = RaisedValueError /\
    fst (@generate_ips round_robin reverse_order ["10.0.0.0/28"] 12 30
           (@mkWorld round_robin O [CountExceedsPool 10 2]))
      = RaisedValueError) \/
   exists unique_ips,
     NoDup unique_ips /\
     fst (@generate_ips round_robin insertion_order ["10.0.0.0/28"] 12 20 w0)
       = Returned (PyStr.join "," (@set_iter insertion_order unique_ips)) /\
     fst (@generate_ips round_robin reverse_order ["10.0.0.0/28"] 12 30
            (@mkWorld round_robin O [CountExceedsPool 10 2]))
       = Returned (PyStr.join "," (@set_iter reverse_order unique_ips))) /\
  ((forall l, @set_iter insertion_order l = @set_iter reverse_order l) ->
   fst (@generate_ips round_robin insertion_order ["10.0.0.0/28"] 12 20 w0)
     = fst (@generate_ips round_robin reverse_order ["10.0.0.0/28"] 12 30
              (@mkWorld round_robin O [CountExceedsPool 10 2]))).
Proof.
  apply (@generate_ips_deterministic round_robin insertion_order reverse_order
           ["10.0.0.0/28"] 12 20 30 w0
           (@mkWorld round_robin O [CountExceedsPool 10 2]));
    [reflexivity | vm_compute; discriminate | vm_compute; discriminate].
Defined.

(** Against C9 as the specification words it (the same string): from
    the same generator state, the /30 example comes back as
    192.168.1.1,192.168.1.2 in a process that iterates sets in insertion
    order and as 192.168.1.2,192.168.1.1 in one that iterates them the
    other way round. *)
Lemma generate_ips_order_counterexample :
  rng w0 = rng w0 /\
  fst (@generate_ips round_robin insertion_order ["192.168.1.0/30"] 10 5 w0)
    = Returned "192.168.1.1,192.168.1.2" /\
  fst (@generate_ips round_robin reverse_order ["192.168.1.0/30"] 10 5 w0)
    = Returned "192.168.1.2,192.168.1.1" /\
  fst (@generate_ips round_robin insertion_order ["192.168.1.0/30"] 10 5 w0)
    <> fst (@generate_ips round_robin reverse_order ["192.168.1.0/30"] 10 5 w0).
Proof.
  repeat split; vm_compute; discriminate.
Qed.

Lemma generate_ips_exhaustive_overlap_witness :
  ~ NoDup (@host_pool round_robin ["192.168.1.0/30"; "192.168.1.0/30"]) /\
  @generate_ips round_robin insertion_order ["192.168.1.0/30"; "192.168.1.0/30"] 10 1000 w0 =
    (OutOfFuel, @mkWorld round_robin O [CountExceedsPool 10 4]).
Proof.
  assert (Hdup : ~ NoDup (@host_pool round_robin
                            ["192.168.1.0/30"; "192.168.1.0/30"])).
  { intros H. inversion H as [| x l Hnotin _]. apply Hnotin.
    vm_compute. auto. }
  split; [exact Hdup | ].
  apply (@generate_ips_exhaustive_overlap round_robin insertion_order
           ["192.168.1.0/30"; "192.168.1.0/30"] 10 1000 w0);
    [lia | vm_compute; reflexivity | exact Hdup].
Defined.

Lemma ip_network_strict_witness :
  cidr 3232235777 24 = "192.168.1.1/24" /\
  @ip_network round_robin "192.168.1.1/24" = Raise HostBitsSet /\
  forall before after,
    @host_pool round_robin (before ++ "192.168.1.1/24" :: after)
      = @host_pool round_robin (before ++ after) /\
    forall num_ips fuel w,
      10 <= num_ips <= 5000 ->
      In (InvalidRange "192.168.1.1/24" HostBitsSet)
         (stdout (snd (@generate_ips round_robin insertion_order
                         (before ++ "192.168.1.1/24" :: after)
                         num_ips fuel w))).
Proof.
  split; [reflexivity | ].
  apply (@ip_network_strict round_robin insertion_order 3232235777 24);
    [lia | lia | vm_compute; discriminate].
Defined.

Lemma generate_ips_sample_witness :
  exists fuel l w',
    (forall fuel', (fuel <= fuel')%nat ->
       @generate_ips round_robin insertion_order ["10.0.0.0/28"] 10 fuel' w0
         = (Returned (PyStr.join "," l), w')) /\
    NoDup l /\ Z.of_nat (List.length l) = 10 /\
    forall address, In address l ->
      exists ip_range network,
        In ip_range ["10.0.0.0/28"] /\
        @ip_network round_robin ip_range = Ok network /\
        In address (host_strings network).
Proof.
  apply (@generate_ips_sample round_robin insertion_order ["10.0.0.0/28"] 10 w0);
    [lia | vm_compute; discriminate | apply round_robin_fair].
Defined.


(** Against C1 as the specification words it (a pool of size at
    least the count): the same /29 twice gives a pool of 12 entries,
    which is at least the count of 10, yet only 6 distinct addresses,
    and no run returns, even under the fair round-robin generator. *)
Lemma generate_ips_sample_overlap_counterexample :
  10 <= 10 <= 5000 /\
  10 <= Z.of_nat (List.length
                    (@host_pool round_robin ["10.0.0.0/29"; "10.0.0.0/29"])) /\
  @fair round_robin
     (List.length (@host_pool round_robin ["10.0.0.0/29"; "10.0.0.0/29"]))
     (rng w0) /\
  ~ exists fuel s w',
      @generate_ips round_robin insertion_order ["10.0.0.0/29"; "10.0.0.0/29"] 10 fuel w0
        = (Returned s, w').
Proof.
  split; [lia | ]. split; [vm_compute; discriminate | ].
  split; [apply round_robin_fair | ].
  intros (fuel & s & w' & Hrun).
  rewrite (@generate_ips_stuck round_robin insertion_order) in Hrun;
    [discriminate | lia | vm_compute; reflexivity].
Qed.

(** ** Reserved addresses and the examples of the specification *)

Lemma py_range_In a b x : In x (py_range a b) <-> a <= x < b.
Proof.
  unfold py_range. rewrite in_map_iff. split.
  - intros (k & <- & Hk). apply in_seq in Hk. lia.
  - intros Hx. exists (Z.to_nat (x - a)). split; [lia | ].
    apply in_seq. lia.
Qed.

(** Up to a /30, [hosts()] leaves out the network address and the
    broadcast address of the network. *)
Lemma hosts_exclude_reserved n :
  prefixlen n <= 30 ->
  ~ In (network_address n) (hosts n) /\ ~ In (broadcast_address n) (hosts n).
Proof.
  intros Hp. unfold hosts.
  replace (prefixlen n =? _max_prefixlen - 1) with false
    by (symmetry; apply Z.eqb_neq; unfold _max_prefixlen, IPV4LENGTH; lia).
  replace (prefixlen n =? _max_prefixlen) with false
    by (symmetry; apply Z.eqb_neq; unfold _max_prefixlen, IPV4LENGTH; lia).
  rewrite !py_range_In. lia.
Qed.

(** A /31 hands out both, and a /32 its only address, which is both. *)
Lemma hosts_include_reserved n :
  31 <= prefixlen n <= 32 ->
  In (network_address n) (hosts n) /\ In (broadcast_address n) (hosts n).
Proof.
  intros Hp. unfold hosts, broadcast_address, hostmask, netmask.
  assert (Hcase : prefixlen n = 31 \/ prefixlen n = 32) by lia.
  destruct Hcase as [-> | ->].
  - change (31 =? _max_prefixlen - 1) with true. cbv iota.
    change (Z.lxor (_ip_int_from_prefix 31) _ALL_ONES) with (Z.ones 1).
    rewrite !py_range_In.
    pose proof (Z.add_lor_land (network_address n) (Z.ones 1)) as Hsum.
    rewrite Z.land_ones in Hsum by lia.
    pose proof (Z.mod_pos_bound (network_address n) (2 ^ 1) ltac:(lia)).
    change (Z.ones 1) with 1 in *. change (2 ^ 1) with 2 in *. lia.
  - change (32 =? _max_prefixlen - 1) with false.
    change (32 =? _max_prefixlen) with true. cbv iota.
    change (Z.lxor (_ip_int_from_prefix 32) _ALL_ONES) with 0.
    rewrite Z.lor_0_r. simpl. auto.
Qed.

Lemma nodup_fixed_NoDup (l : list string) : nodup string_dec l = l -> NoDup l.
Proof. intros <-. apply NoDup_nodup. Qed.

Section SpecExamples.

Context {RT : Runtime} {SO : SetOrder}.

(** ranges = ["10.0.0.0/24"], count = 300: all 254 hosts of the /24,
    each once, after the clamp warning. *)
Lemma generate_ips_slash24 w :
  fair 254 (rng w) ->
  exists fuel l g,
    generate_ips ["10.0.0.0/24"] 300 fuel w =
      (Returned (PyStr.join "," l),
       mkWorld g (stdout w ++ [CountExceedsPool 300 254])) /\
    NoDup l /\ List.length l = 254%nat /\
    Permutation l (host_pool ["10.0.0.0/24"]).
Proof.
  intros Hfair.
  assert (Hlen : List.length (host_pool ["10.0.0.0/24"]) = 254%nat)
    by (vm_compute; reflexivity).
  assert (Hnd : NoDup (host_pool ["10.0.0.0/24"]))
    by (apply nodup_fixed_NoDup; vm_compute; reflexivity).
  destruct (@generate_ips_exhaustive RT SO ["10.0.0.0/24"] 300 w)
    as (fuel & l & g & Hrun & Hperm);
    [lia | intros E; rewrite E in Hlen; discriminate | rewrite Hlen; lia
    | exact Hnd | now rewrite Hlen | ].
  exists fuel, l, g. rewrite Hlen in Hrun. split; [exact Hrun | ].
  repeat split.
  - apply (Permutation_NoDup (Permutation_sym Hperm) Hnd).
  - now rewrite (Permutation_length Hperm).
  - exact Hperm.
Qed.

(** ranges = ["not-a-cidr"], count = 20: the empty string, with a
    warning about the range. *)
Lemma generate_ips_not_a_cidr fuel w :
  generate_ips ["not-a-cidr"] 20 fuel w =
    (Returned "",
     mkWorld (rng w) (stdout w ++ [InvalidRange "not-a-cidr" NotIPv4OrIPv6])).
Proof.
  assert (Hnet : ip_network "not-a-cidr" = Raise NotIPv4OrIPv6).
  { unfold ip_network.
    change (IPv4Network_init "not-a-cidr") with (@Raise IPv4Network AddressValueError).
    now rewrite IPv6Network_colon. }
  rewrite generate_ips_eq by lia. unfold host_pool, range_warnings.
  cbn [flat_map]. rewrite Hnet. reflexivity.
Qed.

End SpecExamples.

(** * Further properties of the sampler *)

(** ** What a returning call has drawn, printed and returned *)

Section SamplerAccounts.

Context {RT : Runtime} {SO : SetOrder}.

Lemma effective_count_min all_ips num_ips :
  effective_count all_ips num_ips
    = Z.min num_ips (Z.of_nat (List.length all_ips)).
Proof.
  unfold effective_count.
  destruct (_ <? _) eqn:E; [apply Z.ltb_lt in E | apply Z.ltb_ge in E]; lia.
Qed.

(** Each iteration of the loop makes one draw and adds at most one
    string. *)
Lemma draw_loop_draws pool t : forall fuel u g u' g',
  draw_loop fuel pool t u g = Some (u', g') ->
  exists k, (k <= fuel)%nat /\
    g' = rng_after (List.length pool) k g /\
    (List.length u' <= List.length u + k)%nat.
Proof.
  induction fuel as [| fuel IH]; intros u g u' g' Hrun;
    rewrite draw_loop_unfold in Hrun;
    destruct (Z.of_nat (List.length u) <? t); try discriminate;
    try (injection Hrun as <- <-; exists O; simpl; split; [lia | split; [reflexivity | lia]]).
  apply IH in Hrun as (k & Hk & Hg & Hlen).
  exists (S k). split; [lia | ]. split.
  - rewrite Hg. simpl. f_equal. unfold choice.
    now destruct (_randbelow (List.length pool) g).
  - destruct (in_dec string_dec (fst (choice pool g)) u) as [Hin | Hout].
    + rewrite set_add_length_old in Hlen by exact Hin. lia.
    + rewrite set_add_length_new in Hlen by exact Hout. lia.
Qed.


(** X2. On a count in [10, 5000] the call prints, after what was
    printed before, one warning per range that does not parse, in the
    order of the ranges, and then the clamp warning exactly when the
    pool is not empty and smaller than the count; nothing else, whether
    or not the loop ends. *)
Theorem generate_ips_prints ip_ranges num_ips fuel w :
  10 <= num_ips <= 5000 ->
  stdout (snd (generate_ips ip_ranges num_ips fuel w)) =
    (stdout w ++ range_warnings ip_ranges ++
     (if (0 <? List.length (host_pool ip_ranges))%nat
         && (Z.of_nat (List.length (host_pool ip_ranges)) <? num_ips)
      then [CountExceedsPool num_ips (List.length (host_pool ip_ranges))]
      else []))%list.
Proof.
  intros Hcount. rewrite generate_ips_eq by exact Hcount. cbv zeta.
  destruct (host_pool ip_ranges) as [| a pool].
  - cbn [snd stdout List.length Nat.ltb Nat.leb andb]. now rewrite app_nil_r.
  - unfold clamp_warning.
    destruct (draw_loop _ _ _ _ _) as [[u g] | ]; reflexivity.
Qed.

(** X3. A returning call has advanced the generator by some number of
    draws below the pool size, at least as many as the addresses it
    returns and none for an empty pool; no other use of the generator
    is made. *)
Theorem generate_ips_draws ip_ranges num_ips fuel w s w' :
  generate_ips ip_ranges num_ips fuel w = (Returned s, w') ->
  exists k,
    rng w' = rng_after (List.length (host_pool ip_ranges)) k (rng w) /\
    Z.min num_ips (Z.of_nat (List.length (host_pool ip_ranges))) <= Z.of_nat k /\
    (host_pool ip_ranges = [] -> k = O).
Proof.
  intros Hrun.
  assert (Hout : num_ips < 10 \/ num_ips > 5000 \/ 10 <= num_ips <= 5000) by lia.
  destruct Hout as [Hout | [Hout | Hcount]];
    try (rewrite generate_ips_out_of_range in Hrun by lia; discriminate).
  rewrite generate_ips_eq in Hrun by exact Hcount. cbv zeta in Hrun.
  destruct (host_pool ip_ranges) as [| a pool] eqn:Hpool.
  - injection Hrun as _ <-. exists O. simpl. repeat split; lia.
  - destruct (draw_loop _ _ _ _ _) as [[u g] | ] eqn:Hloop; [ | discriminate].
    injection Hrun as _ <-. cbn [rng].
    pose proof (effective_count_le (a :: pool) num_ips) as Hle.
    rewrite effective_count_min in Hloop, Hle.
    destruct (draw_loop_draws _ _ _ _ _ Hloop) as (k & _ & Hg & Hlen).
    apply draw_loop_inv in Hloop as (_ & _ & Hsize);
      [ | discriminate | constructor | intros x [] | simpl List.length in *; lia ].
    exists k. repeat split; [exact Hg | simpl List.length in *; lia | discriminate].
Qed.

(** X4. Under a fair generator a call on a count in [10, 5000] comes
    to an end exactly when the effective count, the smaller of the
    count and the pool size, does not exceed the number of distinct
    addresses in the pool. *)
Theorem generate_ips_returns_iff ip_ranges num_ips w :
  10 <= num_ips <= 5000 ->
  fair (List.length (host_pool ip_ranges)) (rng w) ->
  (exists fuel, fst (generate_ips ip_ranges num_ips fuel w) <> OutOfFuel) <->
  Z.min num_ips (Z.of_nat (List.length (host_pool ip_ranges)))
    <= Z.of_nat (List.length (nodup string_dec (host_pool ip_ranges))).
Proof.
  intros Hcount Hfair. rewrite <- effective_count_min. split.
  - intros (fuel & Hend).
    destruct (Z_le_gt_dec (effective_count (host_pool ip_ranges) num_ips)
                (Z.of_nat (List.length (nodup string_dec (host_pool ip_ranges)))))
      as [Hle | Hgt]; [exact Hle | ].
    rewrite generate_ips_stuck in Hend by lia. now destruct Hend.
  - intros Hle.
    destruct (host_pool ip_ranges) as [| a pool] eqn:Hpool.
    + exists O. rewrite generate_ips_eq by exact Hcount. cbv zeta.
      rewrite Hpool. discriminate.
    + destruct (@generate_ips_returns RT SO ip_ranges num_ips w Hcount)
        as (fuel & u & g & Hrun & _); rewrite ?Hpool;
        [discriminate | exact Hle | exact Hfair | ].
      exists fuel. rewrite (Hrun fuel (le_n fuel)). discriminate.
Qed.

End SamplerAccounts.

(** ** What [ip_network] hands back *)

Lemma is_ascii_digit_range c :
  PyStr.is_ascii_digit c = true -> 0 <= Z.of_nat (nat_of_ascii c) - 48 <= 9.
Proof.
  unfold PyStr.is_ascii_digit. intros H.
  apply andb_true_iff in H as [H1 H2].
  apply Nat.leb_le in H1, H2. lia.
Qed.

Lemma int_acc_nonneg s : forall acc,
  PyStr.all_chars PyStr.is_ascii_digit s = true ->
  0 <= acc -> 0 <= PyStr.int_acc acc s.
Proof.
  induction s as [| c s IH]; intros acc Hd Hacc;
    cbn [PyStr.all_chars PyStr.int_acc] in *; [exact Hacc | ].
  apply andb_true_iff in Hd as [Hc Hs].
  apply IH; [exact Hs | ]. pose proof (is_ascii_digit_range _ Hc). lia.
Qed.

Lemma isdigit_all_chars s :
  PyStr.isdigit s = true -> PyStr.all_chars PyStr.is_ascii_digit s = true.
Proof. destruct s; [discriminate | auto]. Qed.

Lemma _parse_octet_range o b : _parse_octet o = Some b -> 0 <= b < 256.
Proof.
  unfold _parse_octet. intros H.
  destruct (String.eqb o ""); [discriminate | ].
  destruct (PyStr.isdigit o) eqn:Hd; [ | discriminate]. cbn [negb] in H.
  destruct (3 <? String.length o)%nat; [discriminate | ].
  destruct (_ && _); [discriminate | ].
  destruct (255 <? PyStr.int o) eqn:Hmax; [discriminate | ].
  injection H as <-. apply Z.ltb_ge in Hmax. split; [ | lia].
  apply int_acc_nonneg; [now apply isdigit_all_chars | lia].
Qed.

Lemma parse_octets_range octets : forall bs,
  parse_octets octets = Some bs ->
  Forall (fun b => 0 <= b < 256) bs /\ List.length bs = List.length octets.
Proof.
  induction octets as [| o rest IH]; intros bs H; simpl in H.
  - injection H as <-. split; [constructor | reflexivity].
  - destruct (_parse_octet o) as [b | ] eqn:Ho; [ | discriminate].
    destruct (parse_octets rest) as [bs' | ]; [ | discriminate].
    injection H as <-. destruct (IH bs' eq_refl) as [Hall Hlen].
    split; [constructor; eauto using _parse_octet_range | simpl; congruence].
Qed.

Lemma _ip_int_from_string_range s a :
  _ip_int_from_string s = Ok a -> 0 <= a < 2 ^ 32.
Proof.
  unfold _ip_int_from_string. intros H.
  destruct (String.eqb s ""); [discriminate | ].
  destruct (List.length (PyStr.split "." s) =? 4)%nat eqn:Hlen; [ | discriminate].
  cbn [negb] in H. apply Nat.eqb_eq in Hlen.
  destruct (parse_octets (PyStr.split "." s)) as [bs | ] eqn:Hp; [ | discriminate].
  injection H as <-. apply parse_octets_range in Hp as [Hall Hl].
  rewrite Hlen in Hl.
  destruct bs as [| b1 [| b2 [| b3 [| b4 [| ? ?]]]]]; try discriminate.
  pose proof (Forall_inv Hall) as H1.
  pose proof (Forall_inv (Forall_inv_tail Hall)) as H2.
  pose proof (Forall_inv (Forall_inv_tail (Forall_inv_tail Hall))) as H3.
  pose proof (Forall_inv (Forall_inv_tail (Forall_inv_tail (Forall_inv_tail Hall))))
    as H4.
  cbv beta in H1, H2, H3, H4. unfold from_bytes. cbn [fold_left].
  change (2 ^ 32) with 4294967296. lia.
Qed.

Lemma IPv4Address_range s a : IPv4Address s = Ok a -> 0 <= a < 2 ^ 32.
Proof.
  unfold IPv4Address. destruct (PyStr.contains "/" s); [discriminate | ].
  apply _ip_int_from_string_range.
Qed.

Lemma bit_length_nonneg x : 0 <= bit_length x.
Proof.
  unfold bit_length. destruct (x =? 0); [lia | ].
  pose proof (Z.log2_nonneg (Z.abs x)). lia.
Qed.

Lemma _prefix_from_ip_int_range x p :
  _prefix_from_ip_int x = Some p -> 0 <= p <= 32.
Proof.
  unfold _prefix_from_ip_int, _count_righthand_zero_bits, _max_prefixlen, IPV4LENGTH.
  cbv zeta. pose proof (bit_length_nonneg (Z.land (Z.lnot x) (x - 1))) as Hb.
  set (tz := if x =? 0 then 32 else Z.min 32 _) in *.
  assert (Htz : 0 <= tz <= 32) by (unfold tz; destruct (x =? 0); lia).
  destruct (negb _); [discriminate | ].
  intros H. assert (p = 32 - tz) by congruence. lia.
Qed.

Lemma _make_netmask_range m nm p :
  _make_netmask m = Ok (nm, p) -> 0 <= p <= 32 /\ nm = _ip_int_from_prefix p.
Proof.
  unfold _make_netmask. intros H.
  destruct (_prefix_from_prefix_string m) as [q | e] eqn:Hq.
  - cbn [bind] in H. injection H as <- <-. split; [ | reflexivity].
    unfold _prefix_from_prefix_string in Hq.
    destruct (negb (PyStr.isdigit m)); [discriminate | ].
    destruct (_ <? _)%nat; [discriminate | ].
    destruct ((0 <=? PyStr.int m) && (PyStr.int m <=? _max_prefixlen)) eqn:Hr;
      [ | discriminate].
    cbn [negb] in Hq. injection Hq as <-.
    apply andb_true_iff in Hr as [H1 H2]. apply Z.leb_le in H1, H2.
    unfold _max_prefixlen, IPV4LENGTH in H2. lia.
  - destruct (_prefix_from_ip_string m) as [q | e'] eqn:Hq'; [ | discriminate].
    cbn [bind] in H. injection H as <- <-. split; [ | reflexivity].
    unfold _prefix_from_ip_string in Hq'.
    destruct (_ip_int_from_string m) as [x | ]; [ | discriminate].
    destruct (_prefix_from_ip_int x) as [q1 | ] eqn:H1.
    + injection Hq' as <-. eauto using _prefix_from_ip_int_range.
    + destruct (_prefix_from_ip_int (Z.lxor x _ALL_ONES)) as [q2 | ] eqn:H2;
        [ | discriminate].
      injection Hq' as <-. eauto using _prefix_from_ip_int_range.
Qed.

(** Every network that [IPv4Network] builds has an address of 32 bits,
    a prefix length from 0 to 32 and no bit outside its netmask. *)
Lemma IPv4Network_init_inv s n :
  IPv4Network_init s = Ok n ->
  0 <= network_address n < 2 ^ 32 /\ 0 <= prefixlen n <= 32 /\
  Z.land (network_address n) (netmask n) = network_address n.
Proof.
  unfold IPv4Network_init. intros H.
  destruct (_split_addr_prefix s) as [[addr mask] | ]; [ | discriminate].
  cbn [bind] in H.
  destruct (IPv4Address addr) as [packed | ] eqn:Ha; [ | discriminate].
  cbn [bind] in H. apply IPv4Address_range in Ha.
  assert (Hmask : forall nm plen,
            (0 <= plen <= 32 /\ nm = _ip_int_from_prefix plen) ->
            (if negb (Z.land packed nm =? packed) then Raise HostBitsSet
             else Ok (mkIPv4Network packed plen)) = Ok n ->
            0 <= network_address n < 2 ^ 32 /\ 0 <= prefixlen n <= 32 /\
            Z.land (network_address n) (netmask n) = network_address n).
  { intros nm plen [Hp ->] Hn.
    destruct (Z.land packed (_ip_int_from_prefix plen) =? packed) eqn:E;
      [ | discriminate].
    cbn [negb] in Hn. injection Hn as <-. apply Z.eqb_eq in E.
    unfold netmask. cbn [network_address prefixlen]. auto. }
  destruct mask as [m | ].
  - destruct (_make_netmask m) as [[nm plen] | ] eqn:Hm; [ | discriminate].
    cbn [bind] in H. apply (Hmask nm plen); [ | exact H].
    eauto using _make_netmask_range.
  - cbn [bind] in H.
    apply (Hmask (_ip_int_from_prefix _max_prefixlen) _max_prefixlen);
      [ | exact H].
    unfold _max_prefixlen, IPV4LENGTH. split; [lia | reflexivity].
Qed.

(** The hostmask of a prefix length is the number with that many low
    bits set (checked on all 33 of them). *)
Lemma hostmasks_checked :
  forallb (fun p => Z.lxor (_ip_int_from_prefix p) _ALL_ONES =? 2 ^ (32 - p) - 1)
          (map Z.of_nat (seq 0 33)) = true.
Proof. vm_compute. reflexivity. Qed.

Lemma hostmask_value a p :
  0 <= p <= 32 -> hostmask (mkIPv4Network a p) = 2 ^ (32 - p) - 1.
Proof.
  intros Hp. pose proof hostmasks_checked as H.
  rewrite forallb_forall in H. apply Z.eqb_eq. apply (H p).
  apply in_map_iff. exists (Z.to_nat p). split; [lia | ].
  apply in_seq. lia.
Qed.

(** The broadcast address of a network without host bits is its
    address plus its hostmask, still a 32-bit address. *)
Lemma broadcast_value n :
  0 <= network_address n < 2 ^ 32 -> 0 <= prefixlen n <= 32 ->
  Z.land (network_address n) (netmask n) = network_address n ->
  broadcast_address n = network_address n + 2 ^ (32 - prefixlen n) - 1 /\
  broadcast_address n < 2 ^ 32.
Proof.
  destruct n as [a p]. cbn [network_address prefixlen]. intros Ha Hp Hnet.
  apply (host_bits_set_iff Ha Hp) in Hnet.
  unfold broadcast_address. cbn [network_address].
  pose proof (Z.add_lor_land a (hostmask (mkIPv4Network a p))) as Hsum.
  rewrite Hnet in Hsum.
  pose proof (Z.add_nocarry_mod_lt_pow2 a (hostmask (mkIPv4Network a p)) 32
                ltac:(lia) Hnet) as Hlt.
  rewrite hostmask_value in * by exact Hp.
  assert (Hpow : 0 < 2 ^ (32 - p) <= 2 ^ 32).
  { split; [apply Z.pow_pos_nonneg; lia | apply Z.pow_le_mono_r; lia]. }
  rewrite !Z.mod_small in Hlt by lia. lia.
Qed.

Lemma _string_from_ip_int_inj a b :
  0 <= a < 2 ^ 32 -> 0 <= b < 2 ^ 32 ->
  _string_from_ip_int a = _string_from_ip_int b -> a = b.
Proof.
  intros Ha Hb E.
  destruct (IPv4Address_roundtrip Ha) as [Pa _].
  destruct (IPv4Address_roundtrip Hb) as [Pb _].
  rewrite E in Pa. congruence.
Qed.

Lemma NoDup_map_inj_in {A B} (f : A -> B) (l : list A) :
  (forall x y, In x l -> In y l -> f x = f y -> x = y) ->
  NoDup l -> NoDup (map f l).
Proof.
  induction l as [| a l IH]; intros Hinj Hnd; simpl; [constructor | ].
  inversion Hnd as [| ? ? Hnotin Hnd']; subst. constructor.
  - intros Hin. apply in_map_iff in Hin as (x & Hfx & Hx).
    apply Hnotin. rewrite <- (Hinj x a); simpl; auto.
  - apply IH; [ | exact Hnd']. intros x y Hx Hy. apply Hinj; simpl; auto.
Qed.

Lemma py_range_NoDup a b : NoDup (py_range a b).
Proof.
  unfold py_range. apply NoDup_map_inj_in; [ | apply seq_NoDup].
  intros x y _ _. lia.
Qed.

Lemma py_range_length a b : List.length (py_range a b) = Z.to_nat (b - a).
Proof. unfold py_range. now rewrite length_map, length_seq. Qed.

Lemma hosts_NoDup n : NoDup (hosts n).
Proof.
  unfold hosts. destruct (_ =? _); [apply py_range_NoDup | ].
  destruct (_ =? _); [ | apply py_range_NoDup].
  repeat constructor. intros [].
Qed.

(** The hosts of a network lie between its address and its broadcast
    address. *)
Lemma hosts_between n x :
  In x (hosts n) -> network_address n <= x <= broadcast_address n.
Proof.
  unfold hosts. destruct (prefixlen n =? _max_prefixlen - 1).
  - rewrite py_range_In. lia.
  - destruct (prefixlen n =? _max_prefixlen) eqn:E.
    + intros [<- | []]. split; [lia | ].
      unfold broadcast_address, hostmask, netmask.
      apply Z.eqb_eq in E. rewrite E.
      change (Z.lxor (_ip_int_from_prefix _max_prefixlen) _ALL_ONES) with 0.
      rewrite Z.lor_0_r. lia.
    + rewrite py_range_In. lia.
Qed.

Section ParsedNetworks.

Context {RT : Runtime} {SO : SetOrder}.

Lemma ip_network_V4 r n : ip_network r = Ok (V4 n) -> IPv4Network_init r = Ok n.
Proof.
  unfold ip_network. destruct (IPv4Network_init r) as [n' | e].
  - congruence.
  - destruct e; try discriminate;
      destruct (IPv6Network_hosts r) as [l | e']; try discriminate;
      destruct e'; discriminate.
Qed.

(** X5. Every IPv4 network that [ip_network] accepts is an aligned
    block inside the 32-bit address space: its address has 32 bits, its
    prefix length lies between 0 and 32, the address has no bit inside
    the hostmask, and the broadcast address is the last address of the
    block of 2^(32 - prefixlen) addresses that starts at the network
    address. *)
Theorem ip_network_well_formed r n :
  ip_network r = Ok (V4 n) ->
  0 <= network_address n < 2 ^ 32 /\
  0 <= prefixlen n <= 32 /\
  Z.land (network_address n) (hostmask n) = 0 /\
  broadcast_address n = network_address n + 2 ^ (32 - prefixlen n) - 1 /\
  broadcast_address n < 2 ^ 32.
Proof.
  intros H. apply ip_network_V4, IPv4Network_init_inv in H as (Ha & Hp & Hnet).
  destruct (broadcast_value n Ha Hp Hnet) as [Hb Hlt].
  repeat split; try tauto; try lia.
  destruct n as [a p]. cbn [network_address prefixlen] in *.
  now apply (host_bits_set_iff Ha Hp).
Qed.

Lemma host_strings_count_aux r n :
  ip_network r = Ok (V4 n) ->
  NoDup (host_strings (V4 n)) /\
  Z.of_nat (List.length (host_strings (V4 n))) =
    if prefixlen n =? 32 then 1
    else if prefixlen n =? 31 then 2
    else 2 ^ (32 - prefixlen n) - 2.
Proof.
  intros H. apply ip_network_V4, IPv4Network_init_inv in H as (Ha & Hp & Hnet).
  destruct (broadcast_value n Ha Hp Hnet) as [Hb Hlt]. split.
  - cbn [host_strings]. apply NoDup_map_inj_in; [ | apply hosts_NoDup].
    intros x y Hx Hy. apply hosts_between in Hx, Hy.
    apply _string_from_ip_int_inj; lia.
  - cbn [host_strings]. rewrite length_map. unfold hosts.
    change (_max_prefixlen - 1) with 31. change _max_prefixlen with 32.
    destruct (prefixlen n =? 31) eqn:E31.
    + apply Z.eqb_eq in E31. rewrite E31 in *. cbn [Z.eqb Pos.eqb].
      rewrite py_range_length, Hb. change (2 ^ (32 - 31)) with 2. lia.
    + destruct (prefixlen n =? 32) eqn:E32; [reflexivity | ].
      apply Z.eqb_neq in E31, E32.
      rewrite py_range_length, Hb.
      assert (Hpow : 4 <= 2 ^ (32 - prefixlen n)).
      { change 4 with (2 ^ 2). apply Z.pow_le_mono_r; lia. }
      lia.
Qed.

(** X6. The addresses that an accepted IPv4 range adds to the pool are
    pairwise distinct strings, and there are 2^(32 - prefixlen) - 2 of
    them up to a /30, two for a /31 and one for a /32. *)
Theorem host_strings_count r n :
  ip_network r = Ok (V4 n) ->
  NoDup (host_strings (V4 n)) /\
  Z.of_nat (List.length (host_strings (V4 n))) =
    if prefixlen n =? 32 then 1
    else if prefixlen n =? 31 then 2
    else 2 ^ (32 - prefixlen n) - 2.
Proof. apply host_strings_count_aux. Qed.

(** X7. Up to a /30, an accepted IPv4 range adds neither its own
    network address nor its own broadcast address to the pool. *)
Theorem host_strings_exclude_reserved r n :
  ip_network r = Ok (V4 n) -> prefixlen n <= 30 ->
  ~ (In (_string_from_ip_int (network_address n)) (host_strings (V4 n)) \/
     In (_string_from_ip_int (broadcast_address n)) (host_strings (V4 n))).
Proof.
  intros H Hp30.
  apply ip_network_V4, IPv4Network_init_inv in H as (Ha & Hp & Hnet).
  destruct (broadcast_value n Ha Hp Hnet) as [Hb Hlt].
  assert (Hpow : 0 < 2 ^ (32 - prefixlen n))
    by (apply Z.pow_pos_nonneg; lia).
  destruct (hosts_exclude_reserved n Hp30) as [Hn1 Hn2].
  cbn [host_strings]. rewrite !in_map_iff.
  intros [(x & E & Hx) | (x & E & Hx)];
    pose proof (hosts_between _ _ Hx) as Hrange;
    apply _string_from_ip_int_inj in E; try lia; subst x; tauto.
Qed.

(** X8. A single accepted IPv4 range never hangs the call: for every
    count in [10, 5000], under a fair generator, the call returns (from
    some amount of fuel on) the smaller of the count and the number of
    its hosts many distinct host addresses of that range. *)
Theorem generate_ips_single_range r n num_ips w :
  ip_network r = Ok (V4 n) ->
  10 <= num_ips <= 5000 ->
  fair (List.length (host_strings (V4 n))) (rng w) ->
  exists fuel l w',
    (forall fuel', (fuel <= fuel')%nat ->
       generate_ips [r] num_ips fuel' w = (Returned (PyStr.join "," l), w')) /\
    NoDup l /\ incl l (host_strings (V4 n)) /\
    Z.of_nat (List.length l)
      = Z.min num_ips (Z.of_nat (List.length (host_strings (V4 n)))).
Proof.
  intros Hnet Hcount Hfair.
  assert (Hpool : host_pool [r] = host_strings (V4 n)).
  { unfold host_pool. cbn [flat_map]. rewrite Hnet. apply app_nil_r. }
  pose proof Hnet as Hc. apply host_strings_count_aux in Hc as [Hnd Hlen].
  destruct (@generate_ips_returns RT SO [r] num_ips w Hcount)
    as (fuel & u & g & Hrun & Hu & Hincl & Hsize); rewrite ?Hpool.
  - intros E. rewrite E in Hlen. cbn [List.length Z.of_nat] in Hlen.
    pose proof Hnet as Hinv.
    apply ip_network_V4, IPv4Network_init_inv in Hinv as (_ & Hp & _).
    destruct (prefixlen n =? 32) eqn:E32; [lia | ].
    destruct (prefixlen n =? 31) eqn:E31; [lia | ].
    apply Z.eqb_neq in E31, E32.
    assert (Hpow : 4 <= 2 ^ (32 - prefixlen n))
      by (change 4 with (2 ^ 2); apply Z.pow_le_mono_r; lia).
    lia.
  - rewrite nodup_length_eq by exact Hnd. apply effective_count_le.
  - exact Hfair.
  - rewrite Hpool in *. pose proof (set_iter_perm Hu) as Hperm.
    eexists fuel, (set_iter u), _. split; [exact Hrun | ]. repeat split.
    + apply (Permutation_NoDup (Permutation_sym Hperm) Hu).
    + intros x Hx. apply Hincl. apply (Permutation_in _ Hperm Hx).
    + rewrite (Permutation_length Hperm), Hsize. apply effective_count_min.
Qed.

End ParsedNetworks.

(** ** Notations of a range *)

(** [IPv4Network] on an address followed by a slash and any mask that
    [_make_netmask] reads. *)
Lemma IPv4Network_init_mask a m nm p :
  0 <= a < 2 ^ 32 ->
  PyStr.contains "/" m = false ->
  _make_netmask m = Ok (nm, p) ->
  IPv4Network_init (_string_from_ip_int a ++ "/" ++ m) =
  if Z.land a nm =? a then Ok (mkIPv4Network a p) else Raise HostBitsSet.
Proof.
  intros Ha Hs2 Hmask.
  destruct (IPv4Address_roundtrip Ha) as (Haddr & Hs1).
  unfold IPv4Network_init, _split_addr_prefix.
  generalize dependent (_string_from_ip_int a). intros s1 Haddr Hs1.
  change ("/" ++ m) with (String "/" m).
  rewrite split_app, split_no_sep by assumption.
  cbn [bind]. rewrite Haddr. cbn [bind]. rewrite Hmask. cbn [bind].
  now destruct (Z.land a nm =? a).
Qed.

(** [IPv4Network] on a bare address. *)
Lemma IPv4Network_init_bare a :
  0 <= a < 2 ^ 32 ->
  IPv4Network_init (_string_from_ip_int a) = Ok (mkIPv4Network a 32).
Proof.
  intros Ha. destruct (IPv4Address_roundtrip Ha) as (Haddr & Hs1).
  unfold IPv4Network_init, _split_addr_prefix.
  generalize dependent (_string_from_ip_int a). intros s1 Haddr Hs1.
  rewrite split_no_sep by assumption.
  cbn [bind]. rewrite Haddr. cbn [bind].
  change (_ip_int_from_prefix _max_prefixlen) with (Z.ones 32).
  rewrite Z.land_ones, Z.mod_small by lia. now rewrite Z.eqb_refl.
Qed.

(** Every netmask, and every hostmask of a prefix length from 1 to 31,
    prints in dotted form as a string that [_make_netmask] reads back as
    that prefix length (checked on all of them). *)
Lemma dotted_masks_checked :
  forallb (fun p =>
             let nm := _ip_int_from_prefix p in
             let hm := Z.lxor nm _ALL_ONES in
             match _make_netmask (_string_from_ip_int nm) with
             | Ok (nm', p') => (nm' =? nm) && (p' =? p)
             | Raise _ => false
             end
             && negb (PyStr.contains "/" (_string_from_ip_int nm))
             && negb (PyStr.contains "/" (_string_from_ip_int hm))
             && ((p =? 0) || (p =? 32) ||
                 match _make_netmask (_string_from_ip_int hm) with
                 | Ok (nm', p') => (nm' =? nm) && (p' =? p)
                 | Raise _ => false
                 end))
          (map Z.of_nat (seq 0 33)) = true.
Proof. vm_compute. reflexivity. Qed.

Lemma dotted_masks p nm hm :
  0 <= p <= 32 ->
  nm = _ip_int_from_prefix p -> hm = Z.lxor nm _ALL_ONES ->
  _make_netmask (_string_from_ip_int nm) = Ok (nm, p) /\
  PyStr.contains "/" (_string_from_ip_int nm) = false /\
  PyStr.contains "/" (_string_from_ip_int hm) = false /\
  (1 <= p <= 31 -> _make_netmask (_string_from_ip_int hm) = Ok (nm, p)).
Proof.
  intros Hp Enm Ehm. pose proof dotted_masks_checked as H.
  rewrite forallb_forall in H. specialize (H p).
  assert (Hin : In p (map Z.of_nat (seq 0 33))).
  { apply in_map_iff. exists (Z.to_nat p). split; [lia | ].
    apply in_seq. lia. }
  apply H in Hin. cbv zeta in Hin. rewrite <- Enm, <- Ehm in Hin.
  apply andb_true_iff in Hin as [Hin H4].
  apply andb_true_iff in Hin as [Hin H3].
  apply andb_true_iff in Hin as [H1 H2].
  apply negb_true_iff in H2, H3.
  destruct (_make_netmask (_string_from_ip_int nm)) as [[nm' p'] | ];
    [ | discriminate].
  apply andb_true_iff in H1 as [Hn Hp'].
  apply Z.eqb_eq in Hn, Hp'. subst nm' p'.
  repeat split; auto.
  intros Hmid.
  apply orb_true_iff in H4 as [H4 | H4].
  - apply orb_true_iff in H4 as [H4 | H4]; apply Z.eqb_eq in H4; lia.
  - destruct (_make_netmask (_string_from_ip_int hm)) as [[nm' p'] | ];
      [ | discriminate].
    apply andb_true_iff in H4 as [Hn Hp'].
    apply Z.eqb_eq in Hn, Hp'. now subst nm' p'.
Qed.

Section Notations.

Context {RT : Runtime} {SO : SetOrder}.

(** X9. Printing an accepted IPv4 network in CIDR notation and parsing
    it again gives the same network: [ip_network(str(network))] is
    [network]. *)
Theorem ip_network_cidr_roundtrip r n :
  ip_network r = Ok (V4 n) ->
  ip_network (cidr (network_address n) (prefixlen n)) = Ok (V4 n).
Proof.
  intros H. apply ip_network_V4, IPv4Network_init_inv in H as (Ha & Hp & Hnet).
  unfold ip_network. rewrite IPv4Network_init_cidr by assumption.
  unfold netmask in Hnet. rewrite Hnet, Z.eqb_refl. now destruct n.
Qed.

(** X10. A range may give its mask in dotted form: with the netmask
    of any prefix length, or the hostmask of a prefix length from 1 to
    31, after the slash, [ip_network] gives what it gives for the prefix
    length itself. *)
Theorem ip_network_dotted_masks a p :
  0 <= a < 2 ^ 32 -> 0 <= p <= 32 ->
  ip_network (_string_from_ip_int a ++ "/"
                ++ _string_from_ip_int (netmask (mkIPv4Network a p)))
    = ip_network (cidr a p) /\
  (1 <= p <= 31 ->
   ip_network (_string_from_ip_int a ++ "/"
                 ++ _string_from_ip_int (hostmask (mkIPv4Network a p)))
     = ip_network (cidr a p)).
Proof.
  intros Ha Hp. unfold hostmask, netmask. cbn [prefixlen].
  remember (_ip_int_from_prefix p) as nm eqn:Enm.
  remember (Z.lxor nm _ALL_ONES) as hm eqn:Ehm.
  destruct (dotted_masks Hp Enm Ehm) as (Hnm & Hs1 & Hs2 & Hhm).
  pose proof (IPv4Network_init_cidr Ha Hp) as Hcidr. rewrite <- Enm in Hcidr.
  pose proof (@IPv4Network_init_mask a _ _ _ Ha Hs1 Hnm) as Hdot.
  unfold ip_network. rewrite Hcidr, Hdot.
  split; [now destruct (Z.land a nm =? a) | ].
  intros Hmid.
  pose proof (@IPv4Network_init_mask a _ _ _ Ha Hs2 (Hhm Hmid)) as Hhost.
  rewrite Hhost. now destruct (Z.land a nm =? a).
Qed.

(** X11. An address without a slash is taken as a /32: it is accepted
    and adds exactly itself to the pool. *)
Theorem ip_network_bare_address a :
  0 <= a < 2 ^ 32 ->
  ip_network (_string_from_ip_int a) = Ok (V4 (mkIPv4Network a 32)) /\
  host_pool [_string_from_ip_int a] = [_string_from_ip_int a].
Proof.
  intros Ha.
  assert (H : ip_network (_string_from_ip_int a) = Ok (V4 (mkIPv4Network a 32))).
  { unfold ip_network. now rewrite IPv4Network_init_bare. }
  split; [exact H | ]. unfold host_pool. cbn [flat_map]. now rewrite H.
Qed.

End Notations.

(** * The script part of ipgen.py *)

Section ScriptFacts.

Context {RT : Runtime} {SO : SetOrder}.

Lemma host_pool_main_NoDup : NoDup (host_pool ip_ranges_main).
Proof. apply nodup_fixed_NoDup. vm_compute. reflexivity. Qed.

Lemma host_pool_main_length : List.length (host_pool ip_ranges_main) = 522%nat.
Proof. vm_compute. reflexivity. Qed.

Lemma range_warnings_main : range_warnings ip_ranges_main = [].
Proof. reflexivity. Qed.

(** A finished call, as [run_example] reports it. *)
Lemma run_example_returned ip_ranges num_ips fuel g s w' :
  generate_ips ip_ranges num_ips fuel (mkWorld g []) = (Returned s, w') ->
  run_example ip_ranges num_ips fuel g
    = Some ((map Warning (stdout w') ++ [Generated s])%list, rng w').
Proof. intros H. unfold run_example. now rewrite H. Qed.

(** X12. Run as a script under a generator that is fair from every
    state, the file prints three lines and no error line: 300 pairwise
    distinct host addresses of its three example ranges, then the clamp
    warning of the second example (10 requested, 2 available), then the
    two hosts of 192.168.1.0/30 in either order. *)
Theorem script_output g :
  (forall n g', fair n g') ->
  exists fuel l1 s2 g2,
    script fuel g =
      Some ([Generated (PyStr.join "," l1);
             Warning (CountExceedsPool 10 2);
             Generated s2], g2) /\
    NoDup l1 /\ List.length l1 = 300%nat /\
    incl l1 (host_pool ip_ranges_main) /\
    (s2 = "192.168.1.1,192.168.1.2" \/ s2 = "192.168.1.2,192.168.1.1").
Proof.
  intros Hfair.
  destruct (@generate_ips_returns RT SO ip_ranges_main 300 (mkWorld g []))
    as (fuel1 & u1 & g1 & Hrun1 & Hu1 & Hincl1 & Hlen1);
    [lia | intros E; pose proof host_pool_main_length as H;
           rewrite E in H; discriminate
    | rewrite (nodup_length_eq host_pool_main_NoDup);
      apply effective_count_le | apply Hfair | ].
  destruct (@generate_ips_returns RT SO ip_ranges_small 10 (mkWorld g1 []))
    as (fuel2 & u2 & g2 & Hrun2 & Hu2 & Hincl2 & Hlen2);
    [lia | discriminate | vm_compute; discriminate | apply Hfair | ].
  rewrite effective_count_min, host_pool_main_length in Hlen1.
  unfold clamp_warning in Hrun1. rewrite host_pool_main_length in Hrun1.
  rewrite range_warnings_main in Hrun1. cbn [app stdout Z.ltb Z.of_nat] in Hrun1.
  change (Z.of_nat 522 <? 300) with false in Hrun1. cbn [app] in Hrun1.
  change (host_pool ip_ranges_small) with ["192.168.1.1"; "192.168.1.2"] in *.
  change (range_warnings ip_ranges_small) with (@nil event) in Hrun2.
  change (clamp_warning ["192.168.1.1"; "192.168.1.2"] 10)
    with [CountExceedsPool 10 2] in Hrun2.
  change (effective_count ["192.168.1.1"; "192.168.1.2"] 10) with 2 in Hlen2.
  cbn [app stdout] in Hrun2.
  pose proof (set_iter_perm Hu1) as Hperm1.
  pose proof (set_iter_perm Hu2) as Hperm2.
  exists (Nat.max fuel1 fuel2), (set_iter u1),
    (PyStr.join "," (set_iter u2)), g2.
  split; [ | repeat split].
  - unfold script.
    rewrite (run_example_returned _ _ _ _ (Hrun1 _ (Nat.le_max_l fuel1 fuel2))).
    cbn [stdout rng map app].
    rewrite (run_example_returned _ _ _ _ (Hrun2 _ (Nat.le_max_r fuel1 fuel2))).
    reflexivity.
  - apply (Permutation_NoDup (Permutation_sym Hperm1) Hu1).
  - rewrite (Permutation_length Hperm1). lia.
  - intros x Hx. apply Hincl1. apply (Permutation_in _ Hperm1 Hx).
  - assert (Hp : Permutation (set_iter u2) ["192.168.1.1"; "192.168.1.2"]).
    { rewrite Hperm2. apply NoDup_Permutation_bis; [exact Hu2 | | exact Hincl2].
      simpl. lia. }
    apply Permutation_sym in Hp.
    apply Permutation_length_2_inv in Hp as [-> | ->]; auto.
Qed.

End ScriptFacts.

Lemma script_output_witness :
  exists fuel l1 s2 g2,
    @script round_robin insertion_order fuel O =
      Some ([Generated (PyStr.join "," l1);
             Warning (CountExceedsPool 10 2);
             Generated s2], g2) /\
    NoDup l1 /\ List.length l1 = 300%nat /\
    incl l1 (@host_pool round_robin ip_ranges_main) /\
    (s2 = "192.168.1.1,192.168.1.2" \/ s2 = "192.168.1.2,192.168.1.1").
Proof.
  apply (@script_output round_robin insertion_order O).
  intros n g'. apply round_robin_fair.
Defined.

(** * Stripping text *)

Module PyUniFacts.

Import PyUni.

Lemma lstrip_hd s c r : lstrip s = c :: r -> isspace c = false.
Proof.
  induction s as [| a s IH]; simpl; [discriminate | ].
  destruct (isspace a) eqn:Ha; [exact IH | ]. congruence.
Qed.

Lemma lstrip_split s :
  exists pre, s = (pre ++ lstrip s)%list /\ forallb isspace pre = true.
Proof.
  induction s as [| a s (pre & E & Hpre)]; [now exists [] | ].
  simpl. destruct (isspace a) eqn:Ha.
  - exists (a :: pre). simpl. rewrite Ha, Hpre. now rewrite <- E.
  - now exists [].
Qed.

Lemma forallb_rev {A} (f : A -> bool) l : forallb f (List.rev l) = forallb f l.
Proof.
  induction l as [| a l IH]; [reflexivity | ].
  simpl. rewrite forallb_app, IH. simpl. now rewrite andb_true_r, andb_comm.
Qed.

Lemma rstrip_split s :
  exists post, s = (rstrip s ++ post)%list /\ forallb isspace post = true.
Proof.
  destruct (lstrip_split (List.rev s)) as (pre & E & Hpre).
  exists (List.rev pre). split; [ | now rewrite forallb_rev].
  unfold rstrip. rewrite <- rev_app_distr, <- E. now rewrite rev_involutive.
Qed.

Lemma rstrip_last s init c :
  rstrip s = (init ++ [c])%list -> isspace c = false.
Proof.
  unfold rstrip. intros H. apply (f_equal (@List.rev Z)) in H.
  rewrite rev_involutive, rev_app_distr in H. simpl in H.
  now apply lstrip_hd in H.
Qed.

(** What [strip] leaves starts and ends with a character that is not
    white space, and what it removes is white space. *)
Lemma strip_spec s :
  (exists pre post,
     s = (pre ++ strip s ++ post)%list /\
     forallb isspace pre = true /\ forallb isspace post = true) /\
  (forall c r, strip s = c :: r -> isspace c = false) /\
  (forall init c, strip s = (init ++ [c])%list -> isspace c = false).
Proof.
  destruct (lstrip_split s) as (pre & E1 & Hpre).
  destruct (rstrip_split (lstrip s)) as (post & E2 & Hpost).
  fold (strip s) in E2. repeat split.
  - exists pre, post. now rewrite <- E2.
  - intros c r Hc. rewrite Hc in E2. now apply lstrip_hd in E2.
  - intros init c. apply rstrip_last.
Qed.

Lemma last_app_singleton {A} (l : list A) (c d : A) : last (l ++ [c]) d = c.
Proof. now rewrite last_last. Qed.

(** The same, read off the first and the last character; 32, a space,
    stands for the ends of the empty text. *)
Lemma strip_ends s :
  truthy (strip s) = true ->
  strip s <> [] /\ isspace (hd 32 (strip s)) = false /\
  isspace (last (strip s) 32) = false.
Proof.
  intros Ht. destruct (strip_spec s) as (_ & Hhd & Hlast).
  destruct (strip s) as [| c r] eqn:E; [discriminate | ].
  split; [discriminate | ]. split; [now apply (Hhd c r) | ].
  destruct (exists_last (l := c :: r) ltac:(discriminate)) as (init & d & Ed).
  rewrite Ed, last_app_singleton. now apply (Hlast init d).
Qed.

Lemma replace_In old new s c :
  In c (replace old new s) -> c = new \/ (c <> old /\ In c s).
Proof.
  unfold replace. rewrite in_map_iff. intros (x & Hx & Hin).
  destruct (x =? old) eqn:E; [now left | ].
  apply Z.eqb_neq in E. right. subst c. now split.
Qed.

Lemma replace_id old new s : ~ In old s -> replace old new s = s.
Proof.
  unfold replace. induction s as [| a s IH]; intros Hout; [reflexivity | ].
  simpl. destruct (a =? old) eqn:E.
  - apply Z.eqb_eq in E. subst a. destruct Hout. now left.
  - f_equal. apply IH. intros H. apply Hout. now right.
Qed.

End PyUniFacts.

(** * scan_analyzer.py *)

Module ScanAnalyzerFacts.

Import PyUni PyUniFacts ScanAnalyzer.

Lemma report_filename_safe_aux target :
  forallb (fun c => negb ((c =? 47) || (c =? 92))) (report_filename target)
    = true.
Proof.
  unfold report_filename. rewrite !forallb_app.
  repeat (apply andb_true_iff; split); try reflexivity.
  apply forallb_forall. intros c Hc.
  apply replace_In in Hc as [-> | [H92 Hc]]; [reflexivity | ].
  apply replace_In in Hc as [-> | [H47 _]]; [reflexivity | ].
  apply negb_true_iff, orb_false_iff. split; now apply Z.eqb_neq.
Qed.

(** X13. The name of a report file never holds a slash or a backslash,
    whatever the target: it is "report_", then the target with each of
    them turned into an underscore, then ".md". *)
Theorem report_filename_safe target :
  forallb (fun c => negb ((c =? 47) || (c =? 92))) (report_filename target)
    = true /\
  report_filename target =
    (lit "report_"
     ++ map (fun c => if (c =? 47) || (c =? 92) then 95 else c) target
     ++ lit ".md")%list.
Proof.
  split; [apply report_filename_safe_aux | ].
  - unfold report_filename, replace. rewrite map_map. do 2 f_equal.
    apply map_ext. intros c.
    destruct (c =? 47) eqn:E47; [reflexivity | ]. cbn [orb].
    now destruct (c =? 92).
Qed.

(** X14. Report names collide: a target with a slash or a backslash
    gets the file of the target that has an underscore in its place, so
    the later report overwrites the earlier; targets without slash and
    backslash get different files. *)
Theorem report_filename_collisions :
  (forall a b : ustr,
     report_filename (a ++ 47 :: b)%list = report_filename (a ++ 95 :: b)%list /\
     report_filename (a ++ 92 :: b)%list = report_filename (a ++ 95 :: b)%list) /\
  (forall t1 t2,
     ~ In 47 t1 -> ~ In 92 t1 -> ~ In 47 t2 -> ~ In 92 t2 ->
     report_filename t1 = report_filename t2 -> t1 = t2).
Proof.
  split.
  - intros a b. unfold report_filename, replace.
    rewrite !map_app. cbn [map]. now split.
  - intros t1 t2 H1 H1' H2 H2' E. unfold report_filename in E.
    rewrite (@replace_id 47 95 t1 H1), (@replace_id 47 95 t2 H2) in E.
    rewrite (@replace_id 92 95 t1 H1'), (@replace_id 92 95 t2 H2') in E.
    apply app_inv_head, app_inv_tail in E. exact E.
Qed.

(** X15. Every target read from targets.txt is a line with its white
    space stripped from both ends: it is not empty and neither starts
    nor ends with white space (a line break included), blank lines give
    no target, and there are no more targets than lines. *)
Theorem read_targets_clean lines :
  Forall (fun t => t <> [] /\ isspace (hd 32 t) = false
                   /\ isspace (last t 32) = false /\
                   exists line, In line lines /\ t = strip line)
         (read_targets lines) /\
  (List.length (read_targets lines) <= List.length lines)%nat /\
  (forall line, forallb isspace line = true -> read_targets [line] = []).
Proof.
  unfold read_targets. repeat split.
  - apply Forall_forall. intros t Ht.
    apply in_map_iff in Ht as (line & <- & Hline).
    apply filter_In in Hline as [Hin Htruthy].
    destruct (strip_ends line Htruthy) as (H1 & H2 & H3).
    repeat split; auto. now exists line.
  - rewrite length_map. apply filter_length_le.
  - intros line Hblank. cbn [filter].
    destruct (strip_spec line) as ((pre & post & E & _) & Hhd & _).
    destruct (strip line) as [| c r]; [reflexivity | ].
    specialize (Hhd c r eq_refl).
    rewrite E, !forallb_app in Hblank. cbn [forallb] in Hblank.
    rewrite Hhd in Hblank. cbn [andb] in Hblank.
    now rewrite andb_false_r in Hblank.
Qed.

End ScanAnalyzerFacts.

(** ** The scanning loop *)

Module ScanAnalyzerMain.

Import PyUni PyUniFacts ScanAnalyzer.

Section Loop.

Context {E : Type} (env : Env E) (prompt_before prompt_after : ustr).

#[local] Abbreviation process_target :=
  (process_target env prompt_before prompt_after).
#[local] Abbreviation process_targets :=
  (process_targets env prompt_before prompt_after).
#[local] Abbreviation main := (main env prompt_before prompt_after).
#[local] Abbreviation format_prompt :=
  (format_prompt prompt_before prompt_after).
#[local] Abbreviation round_ok := (round_ok env prompt_before prompt_after).
#[local] Abbreviation loop_ok := (loop_ok env prompt_before prompt_after).

Ltac run_io :=
  unfold ScanAnalyzer.process_target, run_nmap_scan, analyze_with_ollama,
    check_nmap_installed, io_bind, emit, ask, io_ret;
  cbn [fst snd].

Ltac close_round :=
  cbn [negb fst snd]; eexists; eexists; split;
  [ rewrite <- ?app_assoc; cbn [app fst snd]; rewrite <- ?app_assoc;
    cbn [app]; reflexivity
  | unfold ScanAnalyzer.round_ok; cbn; repeat split; auto; try lia;
    solve [ intros ? []
          | intros ? ? []
          | intros p [<- | []]; eexists; split; [reflexivity | eassumption]
          | intros f r [H | []]; congruence ] ].

Lemma process_target_trace target e tr0 :
  exists e' tr,
    process_target target (e, tr0) = (tt, (e', (tr0 ++ tr)%list)) /\
    round_ok target tr.
Proof.
  run_io. destruct (nmap_scan env target e) as [[xml | | | ] e1]; cbn [fst snd];
    try solve [close_round].
  destruct (xml_well_formed env xml) eqn:Hxml; cbn [negb fst snd];
    [ | solve [close_round]].
  destruct (ollama_generate env (format_prompt xml) e1) as [[ | report] e2];
    cbn [fst snd]; [solve [close_round] | ].
  destruct report as [report | ]; cbn [fst snd]; [ | solve [close_round]].
  destruct (write_file env (report_filename target) report e2) as [[ | ] e3];
    cbn [fst snd]; solve [close_round].
Qed.

Lemma nmap_runs_app tr1 tr2 :
  nmap_runs (tr1 ++ tr2) = (nmap_runs tr1 ++ nmap_runs tr2)%list.
Proof. apply flat_map_app. Qed.

Lemma ollama_calls_app tr1 tr2 :
  ollama_calls (tr1 ++ tr2) = (ollama_calls tr1 ++ ollama_calls tr2)%list.
Proof. apply flat_map_app. Qed.

Lemma report_writes_app tr1 tr2 :
  report_writes (tr1 ++ tr2) = (report_writes tr1 ++ report_writes tr2)%list.
Proof. apply flat_map_app. Qed.

Lemma process_targets_trace targets : forall e tr0,
  exists e' tr,
    process_targets targets (e, tr0) = (tt, (e', (tr0 ++ tr)%list)) /\
    loop_ok targets tr.
Proof.
  induction targets as [| target rest IH]; intros e tr0.
  - exists e, []. split; [cbn; now rewrite app_nil_r | ].
    unfold ScanAnalyzer.loop_ok. cbn.
    repeat split; auto; solve [intros ? [] | intros ? ? []].
  - destruct (process_target_trace target e tr0) as (e1 & tr1 & Hrun1 & Hok1).
    destruct (IH e1 (tr0 ++ tr1)%list) as (e2 & tr2 & Hrun2 & Hok2).
    exists e2, (tr1 ++ tr2)%list. split.
    + cbn [ScanAnalyzer.process_targets]. unfold io_bind at 1.
      rewrite Hrun1, Hrun2. now rewrite app_assoc.
    + destruct Hok1 as (Hn1 & _ & Ho1 & Hw1 & Hc1).
      destruct Hok2 as (Hn2 & Ho2 & Hw2 & Hc2).
      unfold ScanAnalyzer.loop_ok.
      rewrite nmap_runs_app, ollama_calls_app, report_writes_app, !length_app.
      repeat split.
      * now rewrite Hn1, Hn2.
      * intros p Hp. apply in_app_iff in Hp as [Hp | Hp]; auto.
      * intros f r Hf. apply in_app_iff in Hf as [Hf | Hf].
        -- exists target. split; [now left | eauto].
        -- destruct (Hw2 f r Hf) as (t & Ht & Ef). exists t. split; [now right | exact Ef].
      * lia.
      * cbn [List.length]. lia.
Qed.

Lemma main_completes e e1 e2 e3 lines :
  nmap_version env e = (VersionOk, e1) ->
  targets_exists env e1 = (true, e2) ->
  targets_lines env e2 = (Some lines, e3) ->
  read_targets lines <> [] ->
  exists e' body,
    main (e, []) = (Completed, (e', (body ++ [PrintAllDone])%list)) /\
    loop_ok (read_targets lines) body.
Proof.
  intros Hv Hex Hlines Hne.
  destruct (process_targets_trace (read_targets lines) e3 [])
    as (e' & body & Hrun & Hok).
  exists e', body. split; [ | exact Hok].
  unfold ScanAnalyzer.main, check_nmap_installed, io_bind, ask, emit, io_ret.
  cbn [fst snd]. rewrite Hv. cbn [fst snd]. rewrite Hex. cbn [fst snd negb].
  rewrite Hlines. cbn [fst snd].
  destruct (read_targets lines) as [| t rest] eqn:Ht; [congruence | ].
  cbn [negb]. rewrite Hrun. reflexivity.
Qed.

(** The three ways in which [main] can end. *)
Lemma main_shape e :
  (exists e', main (e, []) = (Uncaught, (e', []))) \/
  (exists e' msg,
     main (e, []) = (SysExit 1, (e', [msg])) /\
     In msg [PrintNmapMissing; PrintTargetsMissing; PrintReadError;
             PrintNoTargets]) \/
  (exists e' targets body,
     main (e, []) = (Completed, (e', (body ++ [PrintAllDone])%list)) /\
     targets <> [] /\ loop_ok targets body).
Proof.
  destruct (nmap_version env e) as [v e1] eqn:Hv.
  destruct v;
    try (right; left; eexists; exists PrintNmapMissing;
         unfold ScanAnalyzer.main, check_nmap_installed, io_bind, ask, emit, io_ret;
         cbn [fst snd]; rewrite Hv; cbn; now auto).
  2:{ left. eexists.
      unfold ScanAnalyzer.main, check_nmap_installed, io_bind, ask, emit, io_ret.
      cbn [fst snd]. rewrite Hv. reflexivity. }
  destruct (targets_exists env e1) as [[ | ] e2] eqn:Hex.
  2:{ right. left. eexists. exists PrintTargetsMissing.
      unfold ScanAnalyzer.main, check_nmap_installed, io_bind, ask, emit, io_ret.
      cbn [fst snd]. rewrite Hv. cbn [fst snd]. rewrite Hex. cbn. now auto. }
  destruct (targets_lines env e2) as [[lines | ] e3] eqn:Hlines.
  2:{ right. left. eexists. exists PrintReadError.
      unfold ScanAnalyzer.main, check_nmap_installed, io_bind, ask, emit, io_ret.
      cbn [fst snd]. rewrite Hv. cbn [fst snd]. rewrite Hex. cbn [fst snd negb].
      rewrite Hlines. cbn. now auto. }
  destruct (read_targets lines) as [| t rest] eqn:Ht.
  - right. left. eexists. exists PrintNoTargets.
    unfold ScanAnalyzer.main, check_nmap_installed, io_bind, ask, emit, io_ret.
    cbn [fst snd]. rewrite Hv. cbn [fst snd]. rewrite Hex. cbn [fst snd negb].
    rewrite Hlines. cbn [fst snd]. rewrite Ht. cbn. now auto 6.
  - right. right.
    destruct (main_completes e Hv Hex Hlines) as (e' & body & Hrun & Hok);
      [rewrite Ht; discriminate | ].
    exists e', (t :: rest), body. rewrite Ht in Hok.
    split; [exact Hrun | split; [discriminate | exact Hok]].
Qed.

(** X16. [main] leaves with status 1 only before the first scan, after
    exactly one message (nmap missing, targets.txt missing, targets.txt
    unreadable, or no target in it); only the nmap version check can let
    an exception escape, before anything is printed; in every other case
    [main] reaches its last line, after at least one scan. *)
Theorem main_outcomes e :
  match main (e, []) with
  | (Uncaught, (_, tr)) => tr = []
  | (SysExit code, (_, tr)) =>
      code = 1 /\
      (tr = [PrintNmapMissing] \/ tr = [PrintTargetsMissing] \/
       tr = [PrintReadError] \/ tr = [PrintNoTargets])
  | (Completed, (_, tr)) =>
      exists body, tr = (body ++ [PrintAllDone])%list /\ nmap_runs body <> []
  end.
Proof.
  destruct (main_shape e)
    as [(e' & ->) | [(e' & msg & -> & Hmsg) | (e' & targets & body & -> & Hne & Hok)]].
  - reflexivity.
  - split; [reflexivity | ]. cbn in Hmsg.
    destruct Hmsg as [<- | [<- | [<- | [<- | []]]]]; auto.
  - exists body. split; [reflexivity | ]. destruct Hok as (-> & _). exact Hne.
Qed.

(** X17. Once nmap is there and targets.txt has been read with at
    least one target in it, nothing that happens to a target stops the
    loop: whatever the scans, the XML check, the model and the file
    system answer, [main] runs nmap once for every target, in the order
    of the file, and ends on its last line. *)
Theorem main_scans_every_target e e1 e2 e3 lines :
  nmap_version env e = (VersionOk, e1) ->
  targets_exists env e1 = (true, e2) ->
  targets_lines env e2 = (Some lines, e3) ->
  read_targets lines <> [] ->
  exists e' body,
    main (e, []) = (Completed, (e', (body ++ [PrintAllDone])%list)) /\
    nmap_runs body = read_targets lines.
Proof.
  intros Hv Hex Hlines Hne.
  destruct (main_completes e Hv Hex Hlines Hne) as (e' & body & Hrun & Hok).
  exists e', body. split; [exact Hrun | apply Hok].
Qed.

Lemma main_trace_facts e :
  let tr := snd (snd (main (e, []))) in
  exists targets,
    nmap_runs tr = targets /\
    (forall p, In p (ollama_calls tr) ->
       exists xml, p = format_prompt xml /\ xml_well_formed env xml = true) /\
    (forall f r, In (f, r) (report_writes tr) ->
       exists target, In target targets /\ f = report_filename target) /\
    (List.length (report_writes tr) <= List.length (ollama_calls tr)
     <= List.length targets)%nat.
Proof.
  cbv zeta.
  destruct (main_shape e)
    as [(e' & ->) | [(e' & msg & -> & Hmsg) | (e' & targets & body & -> & Hne & Hok)]];
    cbn [fst snd].
  - exists []. cbn. repeat split; auto; solve [intros ? [] | intros ? ? []].
  - exists []. cbn in Hmsg.
    destruct Hmsg as [<- | [<- | [<- | [<- | []]]]]; cbn;
      repeat split; auto; solve [intros ? [] | intros ? ? []].
  - exists targets.
    rewrite nmap_runs_app, ollama_calls_app, report_writes_app. cbn.
    rewrite !app_nil_r. exact Hok.
Qed.

(** X18. The model is only ever asked about scans that are well-formed
    XML: every prompt sent to it is the template around an nmap output
    that [ET.fromstring] accepts; and there is at most one request per
    scanned target and at most one report written per request. *)
Theorem main_ollama_calls e :
  let tr := snd (snd (main (e, []))) in
  Forall (fun p => exists xml,
            p = format_prompt xml /\ xml_well_formed env xml = true)
         (ollama_calls tr) /\
  (List.length (report_writes tr) <= List.length (ollama_calls tr)
   <= List.length (nmap_runs tr))%nat.
Proof.
  cbv zeta. destruct (main_trace_facts e) as (targets & Hn & Ho & _ & Hc).
  cbv zeta in *. split; [now apply Forall_forall | now rewrite Hn].
Qed.

(** X19. [main] writes nothing but reports: every file it writes is
    named after a target it has scanned, "report_<target>.md" with the
    slashes and backslashes of the target turned into underscores, a
    name without a path separator. *)
Theorem main_report_files e :
  let tr := snd (snd (main (e, []))) in
  Forall (fun fr =>
            exists target,
              In target (nmap_runs tr) /\ fst fr = report_filename target /\
              forallb (fun c => negb ((c =? 47) || (c =? 92))) (fst fr) = true)
         (report_writes tr).
Proof.
  cbv zeta. destruct (main_trace_facts e) as (targets & Hn & _ & Hw & _).
  cbv zeta in *. apply Forall_forall. intros [f r] Hin.
  destruct (Hw f r Hin) as (target & Ht & ->).
  exists target. rewrite Hn. repeat split; auto.
  apply ScanAnalyzerFacts.report_filename_safe_aux.
Qed.

End Loop.

End ScanAnalyzerMain.

(** * check_urls.py *)

Module CheckUrlsFacts.

Import PyUni PyUniFacts CheckUrls.

Section CheckUrl.

Context {E T F : Type} (env : @Env E T F).

Ltac run_io :=
  unfold check_url, check_ping, http_get, io_bind, emit, ask, io_ret;
  cbn [fst snd].

(** The shapes that a call of [check_url] can take: the row, and what
    it adds to the trace. *)
Lemma check_url_cases url e tr0 :
  exists row e' tr,
    check_url env url (e, tr0) = (row, (e', (tr0 ++ tr)%list)) /\
    ((exists text,
        urlparse_hostname env url = ParseException text /\ tr = [] /\
        row = [Str url; Str fou; Str (jiexi_shibai ++ text)%list; Int 0;
               Str []; Str []]) \/
     (exists hostname (ping_ok : bool),
        urlparse_hostname env url = Hostname hostname /\
        ((tr = [Ping (host_of hostname url); HttpGet url] /\
          row = [Str url; Str (if ping_ok then shi else fou); Str (lit "N/A");
                 Int 0; Str []; Str []]) \/
         (exists status elapsed,
            tr = [Ping (host_of hostname url); HttpGet url] /\
            row = [Str url; Str (if ping_ok then shi else fou); Int status;
                   Float elapsed; Str []; Str []]) \/
         (exists elapsed l redirect_status,
            l <> [] /\
            tr = [Ping (host_of hostname url); HttpGet url; HttpGet l] /\
            row = [Str url; Str (if ping_ok then shi else fou); Int 302;
                   Float elapsed; Str l; redirect_status] /\
            (redirect_status = Str fangwen_shibai \/
             exists code, redirect_status = Int code))))).
Proof.
  run_io. destruct (urlparse_hostname env url) as [text | hostname] eqn:Hparse.
  - exists [Str url; Str fou; Str (jiexi_shibai ++ text)%list; Int 0; Str []; Str []],
      e, []. rewrite app_nil_r. split; [reflexivity | ]. left. now exists text.
  - cbn [fst snd]. destruct (ping env (host_of hostname url) e) as [ping_ok e1].
    cbn [fst snd]. destruct (time env e1) as [t0 e2]. cbn [fst snd].
    destruct (get env url e2) as [[response | ] e3]; cbn [fst snd].
    + destruct (status_code response =? 302) eqn:H302.
      * apply Z.eqb_eq in H302.
        destruct (location response) as [[| c l] | ]; cbn [truthy fst snd].
        -- destruct (time env e3) as [t1 e4]. cbn [fst snd].
           do 3 eexists. split;
             [rewrite <- !app_assoc; cbn [app]; reflexivity | ].
           right. exists hostname, ping_ok. split; [reflexivity | ].
           right. left. now do 2 eexists.
        -- destruct (get env (c :: l) e3) as [[redirect_response | ] e4];
             cbn [fst snd]; destruct (time env e4) as [t1 e5]; cbn [fst snd];
             (do 3 eexists; split;
              [rewrite <- !app_assoc; cbn [app]; reflexivity | ]);
             right; exists hostname, ping_ok; (split; [reflexivity | ]);
             right; right; exists (elapsed_ms env t0 t1), (c :: l);
             eexists; rewrite H302;
             (split; [discriminate | ]); (split; [reflexivity | ]);
             (split; [reflexivity | ]); eauto.
        -- destruct (time env e3) as [t1 e4]. cbn [fst snd].
           do 3 eexists. split;
             [rewrite <- !app_assoc; cbn [app]; reflexivity | ].
           right. exists hostname, ping_ok. split; [reflexivity | ].
           right. left. now do 2 eexists.
      * cbn [truthy fst snd]. destruct (time env e3) as [t1 e4]. cbn [fst snd].
        do 3 eexists. split;
          [rewrite <- !app_assoc; cbn [app]; reflexivity | ].
        right. exists hostname, ping_ok. split; [reflexivity | ].
        right. left. now do 2 eexists.
    + do 3 eexists. split;
        [rewrite <- !app_assoc; cbn [app]; reflexivity | ].
      right. exists hostname, ping_ok. split; [reflexivity | ].
      left. now split.
Qed.

(** X20. Whatever happens, [check_url] returns a row of exactly six
    cells, the six columns of the report: the URL itself, then 是 or 否,
    and text in the fifth. *)
Theorem check_url_row_shape url s :
  let row := fst (check_url env url s) in
  List.length row = 6%nat /\
  nth 0 row (Int 0) = Str url /\
  (nth 1 row (Int 0) = Str shi \/ nth 1 row (Int 0) = Str fou) /\
  exists redirect_url, nth 4 row (Int 0) = Str redirect_url.
Proof.
  cbv zeta. destruct s as [e tr0].
  destruct (check_url_cases url e tr0) as (row & e' & tr & -> & Hcase).
  cbn [fst].
  destruct Hcase as [(text & _ & _ & ->) | (hostname & ping_ok & _ & Hrow)].
  - cbn. repeat split; eauto.
  - destruct Hrow as [(_ & ->) | [(status & el & _ & ->)
                     | (el & l & rs & _ & _ & -> & _)]];
      cbn; destruct ping_ok; repeat split; eauto.
Qed.

(** X21. [check_url] follows at most one redirect: it pings at most
    once, before any request, then requests the URL, and makes a second
    request only when the answer was a 302 with a Location that is not
    empty, to that Location, whose own answer is only recorded.  The
    redirect cells of the row are empty unless that second request was
    made. *)
Theorem check_url_requests url e :
  let row := fst (check_url env url (e, [])) in
  let tr := snd (snd (check_url env url (e, []))) in
  (tr = [] /\ nth 1 row (Int 0) = Str fou) \/
  (exists host,
     hd_error tr = Some (Ping host) /\ pings tr = [host] /\
     ((http_gets tr = [url] /\
       nth 4 row (Int 0) = Str [] /\ nth 5 row (Int 0) = Str []) \/
      (exists l,
         l <> [] /\ http_gets tr = [url; l] /\
         nth 2 row (Str []) = Int 302 /\ nth 4 row (Int 0) = Str l /\
         nth 5 row (Str []) <> Str []))).
Proof.
  cbv zeta.
  destruct (check_url_cases url e []) as (row & e' & tr & -> & Hcase).
  cbn [fst snd app].
  destruct Hcase as [(text & _ & -> & ->) | (hostname & ping_ok & _ & Hrow)].
  - left. now split.
  - right. exists (host_of hostname url).
    destruct Hrow as [(-> & ->) | [(status & el & -> & ->)
                     | (el & l & rs & Hl & -> & -> & Hrs)]]; cbn.
    + repeat split. left. now repeat split.
    + repeat split. left. now repeat split.
    + repeat split. right. exists l. repeat split; auto.
      destruct Hrs as [-> | [code ->]]; discriminate.
Qed.

Lemma before_no_sep sep s : ~ In sep (before sep s).
Proof.
  induction s as [| c s IH]; simpl; [tauto | ].
  destruct (c =? sep) eqn:Ec; [simpl; tauto | ].
  apply Z.eqb_neq in Ec. simpl. intros [H | H]; [congruence | tauto].
Qed.

Lemma before_prefix sep s : exists post, s = (before sep s ++ post)%list.
Proof.
  induction s as [| c s (post & Ec)]; [now exists [] | ].
  simpl. destruct (c =? sep); [now exists (c :: s) | ].
  exists post. simpl. now rewrite <- Ec.
Qed.

Lemma last_piece_eq cur c d s :
  last_piece cur (c :: d :: s) =
  if (c =? 47) && (d =? 47) then last_piece s s else last_piece cur (d :: s).
Proof. reflexivity. Qed.

Lemma last_piece_suffix whole : forall n s cur,
  (List.length s <= n)%nat ->
  (exists pre, whole = (pre ++ cur)%list) ->
  (exists pre, whole = (pre ++ s)%list) ->
  exists pre, whole = (pre ++ last_piece cur s)%list.
Proof.
  induction n as [| n IH]; intros s cur Hn Hcur Hs.
  - destruct s; [exact Hcur | simpl in Hn; lia].
  - destruct s as [| c [| d s'']]; try exact Hcur.
    rewrite last_piece_eq. simpl in Hn.
    destruct ((c =? 47) && (d =? 47)).
    + destruct Hs as (pre & ->).
      apply IH; [lia | | ]; exists (pre ++ [c; d])%list;
        now rewrite <- app_assoc.
    + apply IH; [simpl; lia | exact Hcur | ].
      destruct Hs as (pre & ->). exists (pre ++ [c])%list.
      now rewrite <- app_assoc.
Qed.

(** X22. The host handed to ping is the host name of the parsed URL
    when there is one that is not empty; otherwise it is a piece of the
    URL itself that holds no colon. *)
Theorem host_of_spec url :
  (forall h, h <> [] -> host_of (Some h) url = h) /\
  (forall hostname,
     hostname = None \/ hostname = Some [] ->
     ~ In 58 (host_of hostname url) /\
     exists pre post, url = (pre ++ host_of hostname url ++ post)%list).
Proof.
  split.
  - intros h Hh. unfold host_of. now destruct h.
  - intros hostname Hnone.
    assert (Hhost : host_of hostname url = before 58 (after_double_slash url))
      by (destruct Hnone as [-> | ->]; reflexivity).
    rewrite Hhost. split; [apply before_no_sep | ].
    destruct (@last_piece_suffix url (List.length url) url url)
      as (pre & Hpre); [lia | now exists [] | now exists [] | ].
    destruct (before_prefix 58 (after_double_slash url)) as (post & Hpost).
    exists pre, post. unfold after_double_slash in *.
    now rewrite <- Hpost.
Qed.

End CheckUrl.

(** X23. Every URL read from input.csv is the first cell of a row with
    its white space stripped from both ends: it is not empty and neither
    starts nor ends with white space; rows without cells or with a blank
    first cell give no URL, and the other cells of a row are not
    looked at. *)
Theorem read_urls_clean rows :
  Forall (fun u => u <> [] /\ isspace (hd 32 u) = false
                   /\ isspace (last u 32) = false /\
                   exists c rest, In (c :: rest) rows /\ u = strip c)
         (read_urls rows) /\
  (List.length (read_urls rows) <= List.length rows)%nat /\
  read_urls (map (firstn 1) rows) = read_urls rows.
Proof.
  unfold read_urls. repeat split.
  - apply Forall_forall. intros u Hu.
    apply in_flat_map in Hu as ([| c rest] & Hrow & Hin); [destruct Hin | ].
    destruct (truthy (strip c)) eqn:Ht; [ | destruct Hin].
    destruct Hin as [<- | []].
    destruct (strip_ends c Ht) as (H1 & H2 & H3).
    repeat split; auto. now exists c, rest.
  - induction rows as [| [| c rest] rows IH]; simpl; [lia | lia | ].
    destruct (truthy (strip c)); simpl; lia.
  - induction rows as [| [| c rest] rows IH];
      cbn [map flat_map firstn app] in *; [reflexivity | exact IH | ].
    now rewrite IH.
Qed.

End CheckUrlsFacts.

(** ** The table of results *)

Module TableFacts.

Import PyUni CheckUrls.

Lemma len_app (a b : ustr) : len (a ++ b)%list = len a + len b.
Proof. unfold len. rewrite length_app. lia. Qed.

Lemma len_nonneg (a : ustr) : 0 <= len a.
Proof. unfold len. lia. Qed.

Lemma ljust_len w s : len (ljust w s) = Z.max w (len s).
Proof.
  unfold ljust. rewrite len_app. unfold len. rewrite repeat_length. lia.
Qed.

Lemma max_of_ge first rest :
  first <= max_of first rest /\ forall x, In x rest -> x <= max_of first rest.
Proof.
  unfold max_of. revert first.
  induction rest as [| y rest IH]; intros first; simpl.
  - split; [lia | intros x []].
  - destruct (IH (Z.max first y)) as [H1 H2]. split; [lia | ].
    intros x [<- | Hx]; [lia | auto].
Qed.

(** The six cells of a fixed row. *)
Lemma fixed_row_cells row :
  fixed_row row =
    [nth 0 row []; nth 1 row []; nth 2 row []; nth 3 row []; nth 4 row [];
     nth 5 row []].
Proof.
  destruct row as [| c0 [| c1 [| c2 [| c3 [| c4 [| c5 rest]]]]]]; try reflexivity.
  unfold fixed_row. cbn [firstn List.length].
  replace (Z.to_nat (Z.max 0 (6 - Z.of_nat (S (S (S (S (S (S (List.length rest))))))))))
    with O by lia.
  reflexivity.
Qed.

(** X24. Every data row of the table is cut or padded to exactly six
    cells: cell [i] of the fixed row is cell [i] of the row when the row
    has one and [i] is below six, and the empty text otherwise. *)
Theorem fixed_row_spec row :
  List.length (fixed_row row) = 6%nat /\
  forall i,
    nth i (fixed_row row) [] = if (i <? 6)%nat then nth i row [] else [].
Proof.
  rewrite fixed_row_cells. split; [reflexivity | ].
  intros i. do 6 (destruct i as [| i]; [reflexivity | ]).
  cbn [Nat.ltb Nat.leb]. now destruct i.
Qed.

Lemma row_line_len c0 c1 c2 c3 c4 c5 w0 w1 w2 w3 w4 w5 :
  len c0 <= w0 -> len c1 <= w1 -> len c2 <= w2 ->
  len c3 <= w3 -> len c4 <= w4 -> len c5 <= w5 ->
  len (row_line [c0; c1; c2; c3; c4; c5] [w0; w1; w2; w3; w4; w5])
    = w0 + w1 + w2 + w3 + w4 + w5 + 15.
Proof.
  intros. unfold row_line. cbn [combine map join].
  rewrite !len_app, !ljust_len. change (len (lit " | ")) with 3. lia.
Qed.

Lemma separator_line_len w0 w1 w2 w3 w4 w5 :
  0 <= w0 -> 0 <= w1 -> 0 <= w2 -> 0 <= w3 -> 0 <= w4 -> 0 <= w5 ->
  len (separator_line [w0; w1; w2; w3; w4; w5])
    = w0 + w1 + w2 + w3 + w4 + w5 + 10.
Proof.
  intros. unfold separator_line. cbn [map join].
  rewrite !len_app. change (len (lit "-+")) with 2.
  unfold len. rewrite !repeat_length. lia.
Qed.

(** The widths of the columns of a table that has data: each is at
    least as wide as its header and as that cell of every row. *)
Lemma col_widths_fit d data :
  exists w0 w1 w2 w3 w4 w5,
    col_widths (d :: data) = [w0; w1; w2; w3; w4; w5] /\
    Forall2 (fun h w => len h <= w) headers [w0; w1; w2; w3; w4; w5] /\
    forall row, In row (d :: data) ->
      len (nth 0 row []) <= w0 /\ len (nth 1 row []) <= w1 /\
      len (nth 2 row []) <= w2 /\ len (nth 3 row []) <= w3 /\
      len (nth 4 row []) <= w4 /\ len (nth 5 row []) <= w5.
Proof.
  unfold col_widths. cbn [headers List.length seq combine map].
  do 6 eexists. split; [reflexivity | ]. split.
  - repeat constructor; apply (proj1 (max_of_ge _ _)).
  - intros row Hrow. repeat split;
      match goal with
      | |- len (nth ?i row []) <= max_of ?f ?l =>
          apply (proj2 (max_of_ge f l));
          apply (in_map (fun r => len (nth i r [])) _ _ Hrow)
      end.
Qed.

(** X25. The table is rectangular but its rule is short: for a report
    file with at least its header row, the script prints a header line,
    a rule and one line per data row; the header line and every data
    line have the same number of characters, the sum of the column
    widths plus 15 for the five " | " between them, while the rule,
    joined by "-+", is five characters shorter. *)
Theorem table_lines first rest :
  exists header rule body,
    table (first :: rest) = Some (header :: rule :: body) /\
    List.length body = List.length rest /\
    len header = fold_right Z.add 15 (col_widths (map fixed_row rest)) /\
    Forall (fun line => len line = len header) body /\
    len rule = len header - 5.
Proof.
  unfold table. do 3 eexists. split; [reflexivity | ].
  split; [now rewrite !length_map | ].
  destruct rest as [| r rest]; [cbn; repeat split; constructor | ].
  cbn [map].
  destruct (col_widths_fit (fixed_row r) (map fixed_row rest))
    as (w0 & w1 & w2 & w3 & w4 & w5 & -> & Hh & Hfit).
  assert (Hhead : len (row_line headers [w0; w1; w2; w3; w4; w5])
                  = w0 + w1 + w2 + w3 + w4 + w5 + 15).
  { unfold headers in *.
    inversion Hh as [| ? ? ? ? H0 Hh1]; subst.
    inversion Hh1 as [| ? ? ? ? H1 Hh2]; subst.
    inversion Hh2 as [| ? ? ? ? H2 Hh3]; subst.
    inversion Hh3 as [| ? ? ? ? H3 Hh4]; subst.
    inversion Hh4 as [| ? ? ? ? H4 Hh5]; subst.
    inversion Hh5 as [| ? ? ? ? H5 _]; subst.
    now apply row_line_len. }
  assert (Hpos : 0 <= w0 /\ 0 <= w1 /\ 0 <= w2 /\ 0 <= w3 /\ 0 <= w4 /\ 0 <= w5).
  { destruct (Hfit (fixed_row r) (or_introl eq_refl)) as (? & ? & ? & ? & ? & ?).
    pose proof (len_nonneg (nth 0 (fixed_row r) [])).
    pose proof (len_nonneg (nth 1 (fixed_row r) [])).
    pose proof (len_nonneg (nth 2 (fixed_row r) [])).
    pose proof (len_nonneg (nth 3 (fixed_row r) [])).
    pose proof (len_nonneg (nth 4 (fixed_row r) [])).
    pose proof (len_nonneg (nth 5 (fixed_row r) [])). lia. }
  rewrite Hhead. repeat split.
  - cbn [fold_right]. lia.
  - assert (Hrow : forall raw, In raw (r :: rest) ->
              len (row_line (fixed_row raw) [w0; w1; w2; w3; w4; w5])
              = w0 + w1 + w2 + w3 + w4 + w5 + 15).
    { intros raw Hraw.
      destruct (Hfit (fixed_row raw)) as (? & ? & ? & ? & ? & ?);
        [exact (in_map fixed_row _ _ Hraw) | ].
      rewrite fixed_row_cells in *. cbn [nth] in *. now apply row_line_len. }
    apply Forall_forall. intros line [<- | Hline].
    + apply Hrow. now left.
    + apply in_map_iff in Hline as (row & <- & Hin).
      apply in_map_iff in Hin as (raw & <- & Hraw).
      apply Hrow. now right.
  - rewrite separator_line_len; lia.
Qed.

End TableFacts.

(** * The properties at concrete inputs *)

(** The redirect branch of [check_url] is taken in the example world:
    "http://a" is requested, answers 302 and its Location is requested
    in turn. *)
Lemma check_url_redirect_example :
  CheckUrls.http_gets
    (snd (snd (CheckUrls.check_url CheckUrls.example_env
                 (PyUni.lit "http://a") (O, []))))
    = [PyUni.lit "http://a"; PyUni.lit "http://b"].
Proof. vm_compute. reflexivity. Qed.


Lemma generate_ips_prints_witness :
  stdout (snd (@generate_ips round_robin insertion_order
                 ["192.168.1.1/24"; "192.168.1.0/30"] 10 5 w0)) =
    (stdout w0
     ++ @range_warnings round_robin ["192.168.1.1/24"; "192.168.1.0/30"]
     ++ (if (0 <? List.length
                    (@host_pool round_robin ["192.168.1.1/24"; "192.168.1.0/30"]))%nat
            && (Z.of_nat (List.length
                            (@host_pool round_robin
                               ["192.168.1.1/24"; "192.168.1.0/30"])) <? 10)
         then [CountExceedsPool 10
                 (List.length
                    (@host_pool round_robin ["192.168.1.1/24"; "192.168.1.0/30"]))]
         else []))%list.
Proof.
  apply (@generate_ips_prints round_robin insertion_order
           ["192.168.1.1/24"; "192.168.1.0/30"] 10 5 w0).
  lia.
Defined.

Lemma generate_ips_draws_witness :
  exists k,
    rng (@mkWorld round_robin 2%nat [CountExceedsPool 10 2])
      = @rng_after round_robin
          (List.length (@host_pool round_robin ["192.168.1.0/30"])) k (rng w0) /\
    Z.min 10 (Z.of_nat (List.length (@host_pool round_robin ["192.168.1.0/30"])))
      <= Z.of_nat k /\
    (@host_pool round_robin ["192.168.1.0/30"] = [] -> k = O).
Proof.
  apply (@generate_ips_draws round_robin insertion_order
           ["192.168.1.0/30"] 10 5 w0 "192.168.1.1,192.168.1.2"
           (@mkWorld round_robin 2%nat [CountExceedsPool 10 2])).
  reflexivity.
Defined.

Lemma generate_ips_returns_iff_witness :
  (exists fuel,
     fst (@generate_ips round_robin insertion_order
            ["10.0.0.0/29"; "10.0.0.0/29"] 10 fuel w0) <> OutOfFuel) <->
  Z.min 10 (Z.of_nat (List.length
                        (@host_pool round_robin ["10.0.0.0/29"; "10.0.0.0/29"])))
    <= Z.of_nat (List.length
                   (nodup string_dec
                      (@host_pool round_robin ["10.0.0.0/29"; "10.0.0.0/29"]))).
Proof.
  apply (@generate_ips_returns_iff round_robin insertion_order
           ["10.0.0.0/29"; "10.0.0.0/29"] 10 w0);
    [lia | apply round_robin_fair].
Defined.

Lemma ip_network_well_formed_witness :
  0 <= network_address (mkIPv4Network 167772160 28) < 2 ^ 32 /\
  0 <= prefixlen (mkIPv4Network 167772160 28) <= 32 /\
  Z.land (network_address (mkIPv4Network 167772160 28))
         (hostmask (mkIPv4Network 167772160 28)) = 0 /\
  broadcast_address (mkIPv4Network 167772160 28)
    = network_address (mkIPv4Network 167772160 28)
      + 2 ^ (32 - prefixlen (mkIPv4Network 167772160 28)) - 1 /\
  broadcast_address (mkIPv4Network 167772160 28) < 2 ^ 32.
Proof.
  apply (@ip_network_well_formed round_robin "10.0.0.0/28"
           (mkIPv4Network 167772160 28)).
  reflexivity.
Defined.

Lemma host_strings_count_witness :
  NoDup (host_strings (V4 (mkIPv4Network 167772160 28))) /\
  Z.of_nat (List.length (host_strings (V4 (mkIPv4Network 167772160 28)))) =
    if prefixlen (mkIPv4Network 167772160 28) =? 32 then 1
    else if prefixlen (mkIPv4Network 167772160 28) =? 31 then 2
    else 2 ^ (32 - prefixlen (mkIPv4Network 167772160 28)) - 2.
Proof.
  apply (@host_strings_count round_robin "10.0.0.0/28"
           (mkIPv4Network 167772160 28)).
  reflexivity.
Defined.

Lemma host_strings_exclude_reserved_witness :
  @ip_network round_robin "10.0.0.0/28" = Ok (V4 (mkIPv4Network 167772160 28)) /\
  ~ (In (_string_from_ip_int (network_address (mkIPv4Network 167772160 28)))
        (host_strings (V4 (mkIPv4Network 167772160 28))) \/
     In (_string_from_ip_int (broadcast_address (mkIPv4Network 167772160 28)))
        (host_strings (V4 (mkIPv4Network 167772160 28)))).
Proof.
  split; [reflexivity | ].
  apply (@host_strings_exclude_reserved round_robin "10.0.0.0/28"
           (mkIPv4Network 167772160 28));
    [reflexivity | simpl; lia].
Defined.

Lemma generate_ips_single_range_witness :
  exists fuel l w',
    (forall fuel', (fuel <= fuel')%nat ->
       @generate_ips round_robin insertion_order ["10.0.0.0/28"] 12 fuel' w0
         = (Returned (PyStr.join "," l), w')) /\
    NoDup l /\ incl l (host_strings (V4 (mkIPv4Network 167772160 28))) /\
    Z.of_nat (List.length l)
      = Z.min 12 (Z.of_nat (List.length
                              (host_strings (V4 (mkIPv4Network 167772160 28))))).
Proof.
  apply (@generate_ips_single_range round_robin insertion_order "10.0.0.0/28"
           (mkIPv4Network 167772160 28) 12 w0);
    [reflexivity | lia | apply round_robin_fair].
Defined.

Lemma ip_network_cidr_roundtrip_witness :
  @ip_network round_robin
     (cidr (network_address (mkIPv4Network 167772160 28))
           (prefixlen (mkIPv4Network 167772160 28)))
    = Ok (V4 (mkIPv4Network 167772160 28)).
Proof.
  apply (@ip_network_cidr_roundtrip round_robin "10.0.0.0/255.255.255.240"
           (mkIPv4Network 167772160 28)).
  reflexivity.
Defined.

Lemma ip_network_dotted_masks_witness :
  @ip_network round_robin
     (_string_from_ip_int 167772160 ++ "/"
        ++ _string_from_ip_int (netmask (mkIPv4Network 167772160 28)))
    = @ip_network round_robin (cidr 167772160 28) /\
  (1 <= 28 <= 31 ->
   @ip_network round_robin
      (_string_from_ip_int 167772160 ++ "/"
         ++ _string_from_ip_int (hostmask (mkIPv4Network 167772160 28)))
     = @ip_network round_robin (cidr 167772160 28)).
Proof.
  apply (@ip_network_dotted_masks round_robin 167772160 28); lia.
Defined.

Lemma ip_network_bare_address_witness :
  @ip_network round_robin (_string_from_ip_int 167772161)
    = Ok (V4 (mkIPv4Network 167772161 32)) /\
  @host_pool round_robin [_string_from_ip_int 167772161]
    = [_string_from_ip_int 167772161].
Proof.
  apply (@ip_network_bare_address round_robin 167772161). lia.
Defined.

Lemma main_scans_every_target_witness :
  exists e' body,
    ScanAnalyzer.main ScanAnalyzer.example_env
        (PyUni.lit "scan: ") (PyUni.lit " end") (tt, [])
      = (ScanAnalyzer.Completed,
         (e', (body ++ [ScanAnalyzer.PrintAllDone])%list)) /\
    ScanAnalyzer.nmap_runs body
      = ScanAnalyzer.read_targets
          [PyUni.lit "10.0.0.1" ++ [10]; [10]; PyUni.lit " a/b " ++ [10]]%list.
Proof.
  apply (@ScanAnalyzerMain.main_scans_every_target unit
           ScanAnalyzer.example_env (PyUni.lit "scan: ") (PyUni.lit " end")
           tt tt tt tt
           [PyUni.lit "10.0.0.1" ++ [10]; [10]; PyUni.lit " a/b " ++ [10]]%list);
    [reflexivity | reflexivity | reflexivity | vm_compute; discriminate].
Defined.
